(** * esbuild.config.js: the build script of the accessibility widget

    A shallow embedding of [esbuild.config.js].  The script reads its command
    line and [package.json], assembles one base configuration with two load
    plugins and a banner, and hands it to the bundler either once per target
    (one-shot mode) or as one watched context (watch mode).

    The bundler ([esbuild]) and the markup minifier ([html-minifier]) are
    external: they appear here as the fields of an [engine] record and every
    statement below is made for an arbitrary engine. *)

From Stdlib Require Import String Ascii List ZArith NArith Bool Lia.
From Stdlib Require Import DecimalString.
Import ListNotations.
Open Scope string_scope.

(** ** The JavaScript primitives the script relies on *)

Module JS.

(** [Array.prototype.includes] on an array of strings (strict equality). *)
Definition includes (x : string) (xs : list string) : bool :=
  existsb (String.eqb x) xs.

(** [String.prototype.startsWith]. *)
Definition startsWith (s p : string) : bool := String.prefix p s.

(** [String.prototype.endsWith]; also the meaning of a pattern [/lit$/]. *)
Fixpoint endsWith (s p : string) : bool :=
  String.eqb s p ||
  match s with
  | EmptyString => false
  | String _ r => endsWith r p
  end.

(** [String.prototype.split] with a separator of one character: the pieces
    between the occurrences of the separator, never an empty array. *)
Fixpoint split (sep : ascii) (s : string) : list string :=
  match s with
  | EmptyString => [EmptyString]
  | String c r =>
      if Ascii.eqb c sep then EmptyString :: split sep r
      else match split sep r with
           | [] => [String c EmptyString]
           | p :: ps => String c p :: ps
           end
  end.

(** Conversion of an integral Number to a string, as a template literal
    does it. *)
Definition number_to_string (n : Z) : string :=
  NilZero.string_of_int (Z.to_int n).

(** A value read from a JSON document where the script expects a string:
    the string, or [undefined] when the key is absent. *)
Definition truthy (v : option string) : bool :=
  match v with
  | Some (String _ _) => true
  | _ => false
  end.

(** The contents of a file decoded as ['utf8']: UTF-16 code units. *)
Definition text := list N.

Definition units (s : string) : text :=
  map N_of_ascii (list_ascii_of_string s).

(** WhiteSpace and LineTerminator of ECMAScript, the code units that
    [String.prototype.trim] strips. *)
Definition is_white_space (c : N) : bool :=
  ((9 <=? c) && (c <=? 13) || (c =? 32) || (c =? 160) || (c =? 5760)
   || (8192 <=? c) && (c <=? 8202) || (c =? 8232) || (c =? 8233)
   || (c =? 8239) || (c =? 8287) || (c =? 12288) || (c =? 65279))%N.

Fixpoint trimStart (t : text) : text :=
  match t with
  | c :: r => if is_white_space c then trimStart r else t
  | [] => []
  end.

Definition trimEnd (t : text) : text := rev (trimStart (rev t)).

Definition trim (t : text) : text := trimEnd (trimStart t).

(** The names every object inherits from [Object.prototype]. *)
Definition Object_prototype_names : list string :=
  [ "constructor"; "__defineGetter__"; "__defineSetter__"; "hasOwnProperty";
    "__lookupGetter__"; "__lookupSetter__"; "isPrototypeOf";
    "propertyIsEnumerable"; "toString"; "valueOf"; "__proto__";
    "toLocaleString" ].

(** An object literal with string keys, in insertion order. *)
Definition object (A : Type) := list (string * A).

Fixpoint own_property {A : Type} (o : object A) (k : string) : option A :=
  match o with
  | [] => None
  | (k', v) :: r => if String.eqb k' k then Some v else own_property r k
  end.

(** What a property read [o[k]] evaluates to: an own value, a member of
    [Object.prototype] (a function, or the prototype itself for
    [__proto__]), or [undefined]. *)
Inductive property (A : Type) : Type :=
| Own (v : A)
| Inherited (name : string)
| Undefined.
Arguments Own {A} v.
Arguments Inherited {A} name.
Arguments Undefined {A}.

(** [Object.entries]: the own entries, in insertion order. *)
Definition Object_entries {A : Type} (o : object A) : list (string * A) := o.

(** A string or [undefined] converted to a string, as a template literal
    and a property key do it. *)
Definition to_string (v : option string) : string :=
  match v with
  | Some s => s
  | None => "undefined"
  end.

Definition get {A : Type} (o : object A) (k : option string) : property A :=
  let key := to_string k in
  match own_property o key with
  | Some v => Own v
  | None => if includes key Object_prototype_names then Inherited key
            else Undefined
  end.

(** Errors a promise of the script can reject with. *)
Inductive error : Type :=
| TypeError (message : string)
| SystemError (code : string) (path : option string)
| ExternalError (message : string).

Inductive result (A : Type) : Type :=
| Resolved (v : A)
| Rejected (e : error).
Arguments Resolved {A} v.
Arguments Rejected {A} e.

(** Code that reads and writes a state [S] and may throw; what it wrote
    before throwing stays written. *)
Definition M (S A : Type) : Type := S -> result A * S.

Definition ret {S A : Type} (a : A) : M S A := fun s => (Resolved a, s).

Definition throw {S A : Type} (e : error) : M S A := fun s => (Rejected e, s).

Definition bind {S A B : Type} (m : M S A) (k : A -> M S B) : M S B :=
  fun s =>
    match m s with
    | (Resolved a, s') => k a s'
    | (Rejected e, s') => (Rejected e, s')
    end.

(** [await] of a promise that has settled, or a call that returns or
    throws, when neither touches the state. *)
Definition await {S A : Type} (p : result A) : M S A := fun s => (p, s).

(** [Promise.all]: rejected as soon as one promise is, resolved with all
    the values otherwise. *)
Fixpoint Promise_all {A : Type} (ps : list (result A)) : result (list A) :=
  match ps with
  | [] => Resolved []
  | Rejected e :: _ => Rejected e
  | Resolved v :: r =>
      match Promise_all r with
      | Resolved vs => Resolved (v :: vs)
      | Rejected e => Rejected e
      end
  end.

End JS.

Import JS.

Notation "x <- m ;; k" := (bind m (fun x => k))
  (at level 61, m at next level, right associativity).
Notation "m ;;; k" := (bind m (fun _ => k))
  (at level 61, right associativity).

(** ** The data of the script *)

(** The fields of [package.json] the script reads.  The three optional
    ones are [None] when the key is absent. *)
Module Pkg.
Record package_json : Type := {
  version : string;
  license : string;
  author : string;
  repository_url : string;
  modifiedByCompany : option string;
  modifiedByAuthor : option string;
  originalRepository_url : option string
}.
End Pkg.

(** An entry of [targets]. *)
Record target : Type := {
  format : string;
  outfile : string;
  globalName : option string
}.

(** The options of [esbuild.transform] the script sets. *)
Record transform_options : Type := {
  tr_loader : string;
  tr_minify : bool
}.

(** What [esbuild.transform] resolves with. *)
Record transform_result : Type := {
  code : text;
  map : text;
  warnings : list string
}.

(** The options of [html-minifier] the script sets. *)
Record minify_options : Type := {
  removeComments : bool;
  removeEmptyAttributes : bool;
  collapseWhitespace : bool
}.

(** What an [onLoad] callback returns. *)
Record onload_result : Type := {
  loader : string;
  contents : text
}.

(** What a callback can observe and change: the files and the console.
    A path that cannot be read has no text, and [read_error] is what
    [fs.readFileSync] throws on it: [ENOENT] with the path on a missing
    file, [EISDIR] without a path on a directory, and so on. *)
Record host : Type := {
  files : string -> option text;
  read_error : string -> error;
  console : list string
}.

(** A plugin that registers one [onLoad] callback under one filter. *)
Record plugin : Type := {
  name : string;
  filter : string -> bool;
  onLoad : string -> M host onload_result
}.

(** The object handed to [esbuild.build] and [esbuild.context]. *)
Record build_options : Type := {
  entryPoints : list string;
  bundle : bool;
  minify : bool;
  sourcemap : bool;
  alias : object string;
  loaders : object string;
  plugins : list plugin;
  banner_js : string;
  o_format : option string;
  o_outfile : option string;
  o_globalName : option string
}.

(** A watch context of the bundler. *)
Definition context := nat.

(** The external collaborators: the bundler and the markup minifier. *)
Record engine : Type := {
  esbuild_transform : text -> transform_options -> result transform_result;
  esbuild_build : build_options -> result unit;
  esbuild_context : build_options -> result context;
  context_watch : context -> result unit;
  html_minifier : text -> minify_options -> result text
}.

(** A call the script makes into the bundler. *)
Inductive engine_call : Type :=
| Build (o : build_options)
| Context (o : build_options)
| Watch (c : context).

(** The state of a run: the host and the calls made so far, oldest first. *)
Record process : Type := {
  p_host : host;
  calls : list engine_call
}.

(** How a run ends: [process.exit] or the end of the script with a status,
    or a process kept alive by its watcher. *)
Inductive status : Type :=
| Exited (code : Z)
| Watching.


(** The process after one more line on the console. *)
Definition logged (line : string) (p : process) : process :=
  {| p_host := {| files := files (p_host p);
                  read_error := read_error (p_host p);
                  console := console (p_host p) ++ [line] |};
     calls := calls p |}.

(** The process after more calls into the bundler. *)
Definition called (cs : list engine_call) (p : process) : process :=
  {| p_host := p_host p; calls := calls p ++ cs |}.

(** ** The script *)

Section Script.

(** [process.argv], the parsed [package.json], the year the clock shows
    ([new Date().getFullYear()]) and the external modules. *)
Variable argv : list string.
Variable packageJson : Pkg.package_json.
Variable fullYear : Z.
Variable E : engine.

Definition isWatch : bool := includes "--watch" argv.
Definition isMinify : bool := includes "--minify" argv.

Definition targetArg : option string :=
  find (fun arg => startsWith arg "--target=") argv.

Definition targetFormat : option string :=
  match targetArg with
  | Some (String _ _ as arg) => nth_error (split "=" arg) 1
  | _ => Some "umd"
  end.

Definition readFileSync (path : string) : M host text :=
  fun h =>
    match files h path with
    | Some t => (Resolved t, h)
    | None => (Rejected (read_error h path), h)
    end.

Definition css_transform_options : transform_options :=
  {| tr_loader := "css"; tr_minify := true |}.

Definition CSSMinifyPlugin : plugin :=
  {| name := "CSSMinifyPlugin";
     filter := fun path => endsWith path ".css";
     onLoad := fun path =>
       file <- readFileSync path ;;
       css <- await (esbuild_transform E file css_transform_options) ;;
       ret {| loader := "text"; contents := code css |} |}.

Definition html_minify_options : minify_options :=
  {| removeComments := true;
     removeEmptyAttributes := true;
     collapseWhitespace := true |}.

Definition HTMLMinifyPlugin : plugin :=
  {| name := "HTMLMinifyPlugin";
     filter := fun path => endsWith path ".html" || endsWith path ".svg";
     onLoad := fun path =>
       file <- readFileSync path ;;
       minified <- await (html_minifier E file html_minify_options) ;;
       let html := trim minified in
       ret {| loader := "text"; contents := html |} |}.

Definition nl : string := String (ascii_of_nat 10) EmptyString.
Definition dquote : string := String (ascii_of_nat 34) EmptyString.

Definition banner : string :=
  "/*!" ++ nl ++
  "* Accessibility Widget v" ++ Pkg.version packageJson ++ nl ++
  "* Based on " ++ dquote ++ "Sienna Accessibility Widget" ++ dquote ++
  " by bennyluk (MIT License)" ++ nl ++
  (if truthy (Pkg.modifiedByCompany packageJson)
   then " * Modified by " ++ to_string (Pkg.modifiedByCompany packageJson) ++
        ", " ++ number_to_string fullYear ++
        (if truthy (Pkg.modifiedByAuthor packageJson)
         then " (" ++ to_string (Pkg.modifiedByAuthor packageJson) ++ ")"
         else EmptyString)
   else EmptyString) ++ nl ++
  "* License: " ++ Pkg.license packageJson ++ nl ++
  "* Repository: " ++ Pkg.repository_url packageJson ++ nl ++
  "* " ++ nl ++
  "* Original: (c) " ++ number_to_string fullYear ++ " " ++
  Pkg.author packageJson ++ nl ++
  "* Original Repository: " ++
  (if truthy (Pkg.originalRepository_url packageJson)
   then to_string (Pkg.originalRepository_url packageJson)
   else Pkg.repository_url packageJson) ++ nl ++
  "*/".

Definition baseConfig : build_options :=
  {| entryPoints := ["./src/entry.ts"];
     bundle := true;
     minify := isMinify;
     sourcemap := true;
     alias := [("@", "./src")];
     loaders := [(".html", "text"); (".svg", "text")];
     plugins := [CSSMinifyPlugin; HTMLMinifyPlugin];
     banner_js := banner;
     o_format := None;
     o_outfile := None;
     o_globalName := None |}.

Definition version : string := Pkg.version packageJson.

Definition targets : object target :=
  [ ("esm", {| format := "esm";
               outfile := "dist/accessibility-widget.esm.js";
               globalName := None |});
    ("cjs", {| format := "cjs";
               outfile := "dist/accessibility-widget.cjs.js";
               globalName := None |});
    ("umd", {| format := "iife";
               outfile := "dist/accessibility-widget.umd.js";
               globalName := Some "AccessibilityWidget" |});
    ("umd-versioned",
            {| format := "iife";
               outfile := "dist/accessibility-widget-" ++ version ++ ".umd.js";
               globalName := Some "AccessibilityWidget" |}) ].

Definition buildTarget : property target := get targets targetFormat.

(** [{ ...base, ...t }]: the own enumerable properties of [t] written over
    those of [base]; [undefined] and the members of [Object.prototype]
    contribute none. *)
Definition spread (base : build_options) (t : property target)
  : build_options :=
  match t with
  | Own t =>
      {| entryPoints := entryPoints base;
         bundle := bundle base;
         minify := minify base;
         sourcemap := sourcemap base;
         alias := alias base;
         loaders := loaders base;
         plugins := plugins base;
         banner_js := banner_js base;
         o_format := Some (format t);
         o_outfile := Some (outfile t);
         o_globalName := match globalName t with
                         | Some g => Some g
                         | None => o_globalName base
                         end |}
  | Inherited _ => base
  | Undefined => base
  end.

(** [t.outfile]: a [TypeError] on [undefined], [undefined] on a member of
    [Object.prototype]. *)
Definition get_outfile (t : property target) : M process (option string) :=
  match t with
  | Own t => ret (Some (outfile t))
  | Inherited _ => ret None
  | Undefined =>
      throw (TypeError "Cannot read properties of undefined (reading 'outfile')")
  end.

Definition console_log (line : string) : M process unit :=
  fun p => (Resolved tt, logged line p).

Definition record_call (c : engine_call) : M process unit :=
  fun p => (Resolved tt, called [c] p).

(** [esbuild.build(o)]: the call is made and a promise comes back. *)
Definition start_build (o : build_options) : M process (result unit) :=
  record_call (Build o) ;;; ret (esbuild_build E o).

Definition create_context (o : build_options) : M process context :=
  record_call (Context o) ;;; await (esbuild_context E o).

Definition watch (c : context) : M process unit :=
  record_call (Watch c) ;;; await (context_watch E c).

(** [xs.map(f)] for an [f] that makes calls: one after the other, in the
    order of the array. *)
Fixpoint map_calls {A B : Type} (f : A -> M process B) (xs : list A)
  : M process (list B) :=
  match xs with
  | [] => ret []
  | x :: r => y <- f x ;; ys <- map_calls f r ;; ret (y :: ys)
  end.

Definition build : M process unit :=
  if isWatch then
    ctx <- create_context (spread baseConfig buildTarget) ;;
    watch ctx ;;;
    out <- get_outfile buildTarget ;;
    console_log ("⚡ Watching " ++ to_string out ++ "...")
  else
    console_log "🏗️  Building all formats..." ;;;
    let targetsToBuild :=
      List.filter (fun '(key, _) => negb (String.eqb key "umd-versioned"))
                  (Object_entries targets) in
    promises <- map_calls
                  (fun '(_, t) => start_build (spread baseConfig (Own t)))
                  targetsToBuild ;;
    await (Promise_all promises) ;;;
    out <- get_outfile buildTarget ;;
    console_log ("✅ Build complete: " ++ to_string out) ;;;
    console_log ("📦 Version: " ++ version).

(** [build().catch(() => process.exit(1))], then the end of the script:
    status 1 when the promise rejects; otherwise the watcher keeps the
    process alive in watch mode and the process ends with status 0 in
    one-shot mode. *)
Definition main (p : process) : status * process :=
  match build p with
  | (Rejected _, p') => (Exited 1, p')
  | (Resolved _, p') => (if isWatch then Watching else Exited 0, p')
  end.

(** The bundler offers a file to the [onLoad] callbacks in the order of
    registration; the first whose filter matches loads it. *)
Fixpoint load (ps : list plugin) (path : string)
  : option (M host onload_result) :=
  match ps with
  | [] => None
  | p :: r => if filter p path then Some (onLoad p path) else load r path
  end.

End Script.

(** ** Vocabulary of the statements *)

(** [sub] occurs in [s]. *)
Definition substring_of (sub s : string) : Prop :=
  exists pre post, s = pre ++ sub ++ post.

(** The code units [m] occur in [t], one after the other. *)
Definition occurs_in (m t : text) : Prop :=
  exists pre post, t = (pre ++ m ++ post)%list.

Definition starts_with_white_space (t : text) : bool :=
  match t with
  | c :: _ => is_white_space c
  | [] => false
  end.

Definition ends_with_white_space (t : text) : bool :=
  starts_with_white_space (rev t).

(** The name has no [=] in it. *)
Definition plain_name (s : string) : Prop :=
  ~ In "="%char (list_ascii_of_string s).

(** The target a command line names: [umd] when no argument opens with
    [--target=], else what the first such argument carries. *)
Inductive names_target (argv : list string) : string -> Prop :=
| target_default :
    targetArg argv = None -> names_target argv "umd"
| target_flag (name : string) :
    targetArg argv = Some ("--target=" ++ name) -> names_target argv name.

(** What a call hands to the bundler as format, output file and global. *)
Definition built_target (c : engine_call)
  : list (option string * option string * option string) :=
  match c with
  | Build o => [(o_format o, o_outfile o, o_globalName o)]
  | Context _ => []
  | Watch _ => []
  end.

Definition built_targets (cs : list engine_call)
  : list (option string * option string * option string) :=
  flat_map built_target cs.

(** The metadata fixture: the four required fields fixed, the optional
    ones free. *)
Definition fixture (company author' original : option string)
  : Pkg.package_json :=
  {| Pkg.version := "1.2.3";
     Pkg.license := "MIT";
     Pkg.author := "A";
     Pkg.repository_url := "https://example.com/repo";
     Pkg.modifiedByCompany := company;
     Pkg.modifiedByAuthor := author';
     Pkg.originalRepository_url := original |}.

(** An engine that accepts every request; its minifiers return their
    input, as a minifier does on text that has nothing to remove. *)
Definition idle_engine : engine :=
  {| esbuild_transform := fun t _ =>
       Resolved {| code := t; map := []; warnings := [] |};
     esbuild_build := fun _ => Resolved tt;
     esbuild_context := fun _ => Resolved 0%nat;
     context_watch := fun _ => Resolved tt;
     html_minifier := fun t _ => Resolved t |}.

(** An engine whose bundler rejects the CommonJS target. *)
Definition cjs_failing_engine : engine :=
  {| esbuild_transform := esbuild_transform idle_engine;
     esbuild_build := fun o =>
       match o_format o with
       | Some "cjs" => Rejected (ExternalError "Build failed with 1 error")
       | _ => Resolved tt
       end;
     esbuild_context := esbuild_context idle_engine;
     context_watch := context_watch idle_engine;
     html_minifier := html_minifier idle_engine |}.

(** A host with the given files, where every other path is a missing
    file, and a silent console; and a process that has made no call yet. *)
Definition host_of (fs : string -> option text) : host :=
  {| files := fs;
     read_error := fun path => SystemError "ENOENT" (Some path);
     console := [] |}.

Definition fresh (h : host) : process := {| p_host := h; calls := [] |}.

Definition one_file (path : string) (t : text) : string -> option text :=
  fun p => if String.eqb p path then Some t else None.

(** [{ ...baseConfig, ...targets[key] }], the configuration of a target. *)
Definition config_of (argv : list string) (packageJson : Pkg.package_json)
  (fullYear : Z) (E : engine) (key : string) : build_options :=
  spread (baseConfig argv packageJson fullYear E)
         (get (targets packageJson) (Some key)).

(** The configurations of the three targets of a one-shot run. *)
Definition one_shot_configs (argv : list string)
  (packageJson : Pkg.package_json) (fullYear : Z) (E : engine)
  : list build_options :=
  [ config_of argv packageJson fullYear E "esm";
    config_of argv packageJson fullYear E "cjs";
    config_of argv packageJson fullYear E "umd" ].

(** The keys of [targets]. *)
Definition target_names : list string :=
  ["esm"; "cjs"; "umd"; "umd-versioned"].

(** The file the version-suffixed target writes. *)
Definition versioned_outfile (packageJson : Pkg.package_json) : string :=
  "dist/accessibility-widget-" ++ version packageJson ++ ".umd.js".

(** Sample inputs: a stylesheet, a markup file padded with blanks, and a
    document that is one comment opening with [!]. *)
Definition sample_css : text := units "a { color: red }".
Definition sample_html : text := units "  <p>hi</p> ".
Definition marked_comment : text := units "<!--!x-->".

Definition sample_files (path : string) : option text :=
  if String.eqb path "widget.css" then Some sample_css
  else if String.eqb path "menu.html" then Some sample_html
  else if String.eqb path "icon.svg" then Some sample_html
  else if String.eqb path "note.html" then Some marked_comment
  else None.

Definition sample_host : host := host_of sample_files.

(** The fixture with no optional field, and two hosts that hold the same
    stylesheet under different paths. *)
Definition sample_package : Pkg.package_json := fixture None None None.

Definition host_a : host := host_of (one_file "a.css" sample_css).
Definition host_b : host := host_of (one_file "themes/b.css" sample_css).

(** What the report prints for the selected record: its [outfile], or
    [undefined] for a member of [Object.prototype]. *)
Definition reported_outfile (t : property target) : option string :=
  match t with
  | Own t => Some (outfile t)
  | Inherited _ => None
  | Undefined => None
  end.

(** The options a call carries, if it carries any. *)
Definition call_options (c : engine_call) : option build_options :=
  match c with
  | Build o => Some o
  | Context o => Some o
  | Watch _ => None
  end.

(** The options are those of the base configuration, but for the format,
    the output file and the global name. *)
Definition carries_base (argv : list string) (packageJson : Pkg.package_json)
  (fullYear : Z) (E : engine) (o : build_options) : Prop :=
  entryPoints o = ["./src/entry.ts"] /\
  bundle o = true /\
  minify o = isMinify argv /\
  sourcemap o = true /\
  alias o = [("@", "./src")] /\
  loaders o = [(".html", "text"); (".svg", "text")] /\
  plugins o = [CSSMinifyPlugin E; HTMLMinifyPlugin E] /\
  banner_js o = banner packageJson fullYear.

(** More sample inputs: a markup file of blanks, a fixture with the two
    modification fields, and an engine whose bundler gives no context. *)
Definition blank_markup : text := [32; 10; 9; 160]%N.

Definition blank_host : host := host_of (one_file "blank.html" blank_markup).

Definition modified_package : Pkg.package_json :=
  fixture (Some "ACME") (Some "Bob") None.

Definition context_failing_engine : engine :=
  {| esbuild_transform := esbuild_transform idle_engine;
     esbuild_build := esbuild_build idle_engine;
     esbuild_context := fun _ =>
       Rejected (ExternalError "Cannot use an external source map");
     context_watch := context_watch idle_engine;
     html_minifier := html_minifier idle_engine |}.

(** The metadata with another [modifiedByAuthor]. *)
Definition with_modifiedByAuthor (a : option string)
  (packageJson : Pkg.package_json) : Pkg.package_json :=
  {| Pkg.version := Pkg.version packageJson;
     Pkg.license := Pkg.license packageJson;
     Pkg.author := Pkg.author packageJson;
     Pkg.repository_url := Pkg.repository_url packageJson;
     Pkg.modifiedByCompany := Pkg.modifiedByCompany packageJson;
     Pkg.modifiedByAuthor := a;
     Pkg.originalRepository_url := Pkg.originalRepository_url packageJson |}.

(** ** Facts on the primitives *)

Section Trim.

Let white (c : N) : Prop := is_white_space c = true.

Lemma trimStart_split (t : text) :
  exists ws, t = (ws ++ trimStart t)%list /\ Forall white ws.
Proof.
  induction t as [|c r IH]; simpl.
  - exists []. split; [reflexivity | constructor].
  - destruct (is_white_space c) eqn:Hc.
    + destruct IH as [ws [Heq Hws]]. exists (c :: ws). split.
      * simpl. now rewrite <- Heq.
      * constructor; assumption.
    + exists []. split; [reflexivity | constructor].
Qed.

Lemma trimStart_head (t : text) :
  starts_with_white_space (trimStart t) = false.
Proof.
  induction t as [|c r IH]; simpl; [reflexivity|].
  destruct (is_white_space c) eqn:Hc; [exact IH | simpl; exact Hc].
Qed.

Lemma trimEnd_split (t : text) :
  exists ws, t = (trimEnd t ++ ws)%list /\ Forall white ws.
Proof.
  destruct (trimStart_split (rev t)) as [ws [Heq Hws]].
  exists (rev ws). split.
  - unfold trimEnd. rewrite <- rev_app_distr, <- Heq. symmetry.
    apply rev_involutive.
  - apply Forall_rev. exact Hws.
Qed.

Lemma trimEnd_last (t : text) : ends_with_white_space (trimEnd t) = false.
Proof.
  unfold ends_with_white_space, trimEnd. rewrite rev_involutive.
  apply trimStart_head.
Qed.

Lemma trimEnd_keeps_head (t : text) :
  starts_with_white_space t = false ->
  starts_with_white_space (trimEnd t) = false.
Proof.
  intros Hhead. destruct (trimEnd_split t) as [ws [Heq _]].
  destruct (trimEnd t) as [|c r]; [reflexivity|].
  rewrite Heq in Hhead. exact Hhead.
Qed.

Lemma trim_no_leading (t : text) : starts_with_white_space (trim t) = false.
Proof. apply trimEnd_keeps_head, trimStart_head. Qed.

Lemma trim_no_trailing (t : text) : ends_with_white_space (trim t) = false.
Proof. apply trimEnd_last. Qed.

Lemma trim_split (t : text) :
  exists l r, t = (l ++ trim t ++ r)%list /\ Forall white l /\ Forall white r.
Proof.
  destruct (trimStart_split t) as [l [Hl Wl]].
  destruct (trimEnd_split (trimStart t)) as [r [Hr Wr]].
  exists l, r. repeat split; try assumption.
  unfold trim. now rewrite <- Hr.
Qed.

Lemma occurs_in_trim (m t : text) : occurs_in m (trim t) -> occurs_in m t.
Proof.
  intros [pre [post Hm]]. destruct (trim_split t) as [l [r [Ht _]]].
  exists (l ++ pre)%list, (post ++ r)%list.
  rewrite Ht at 1. rewrite Hm. now rewrite <- !app_assoc.
Qed.

End Trim.

Section Suffixes.

Lemma endsWith_empty (s : string) : endsWith s EmptyString = true.
Proof.
  induction s as [|c r IH]; [reflexivity|].
  cbn [endsWith]. rewrite IH. apply orb_true_r.
Qed.

(** Two patterns neither of which ends with the other match no common
    string. *)
Lemma endsWith_exclusive (p q s : string) :
  endsWith p q = false -> endsWith q p = false ->
  endsWith s p = true -> endsWith s q = false.
Proof.
  intros Hpq Hqp. induction s as [|c r IH]; cbn [endsWith]; intros Hs.
  - rewrite orb_false_r in Hs. apply String.eqb_eq in Hs. subst p.
    now rewrite endsWith_empty in Hqp.
  - apply orb_true_iff in Hs. destruct Hs as [Hs | Hs].
    + apply String.eqb_eq in Hs. subst p. exact Hpq.
    + rewrite (IH Hs), orb_false_r.
      destruct (String.eqb_spec (String c r) q) as [Heq | Hne];
        [|reflexivity].
      subst q. cbn [endsWith] in Hqp. rewrite Hs, orb_true_r in Hqp.
      discriminate Hqp.
Qed.

Lemma markup_path_is_no_stylesheet (path : string) :
  endsWith path ".html" || endsWith path ".svg" = true ->
  endsWith path ".css" = false.
Proof.
  intros H. apply orb_true_iff in H. destruct H as [H | H].
  - now apply (endsWith_exclusive ".html" ".css").
  - now apply (endsWith_exclusive ".svg" ".css").
Qed.

End Suffixes.

(** ** The asset transforms *)

Section Transforms.

Variable E : engine.

(** The stylesheet callback on a readable file: the answer of the engine's
    transform, asked for the [css] loader with [minify] on. *)
Lemma stylesheet_onLoad_run (path : string) (file : text) (h : host) :
  files h path = Some file ->
  onLoad (CSSMinifyPlugin E) path h =
  (match esbuild_transform E file {| tr_loader := "css"; tr_minify := true |}
   with
   | Resolved css => Resolved {| loader := "text"; contents := code css |}
   | Rejected e => Rejected e
   end, h).
Proof.
  intros Hfile.
  cbv [onLoad CSSMinifyPlugin bind readFileSync await ret
       css_transform_options].
  rewrite Hfile.
  destruct (esbuild_transform E file _); reflexivity.
Qed.

(** The markup callback on a readable file: the answer of the minifier,
    asked with its three options on, trimmed. *)
Lemma markup_onLoad_run (path : string) (file : text) (h : host) :
  files h path = Some file ->
  onLoad (HTMLMinifyPlugin E) path h =
  (match html_minifier E file
           {| removeComments := true;
              removeEmptyAttributes := true;
              collapseWhitespace := true |}
   with
   | Resolved minified =>
       Resolved {| loader := "text"; contents := trim minified |}
   | Rejected e => Rejected e
   end, h).
Proof.
  intros Hfile.
  cbv [onLoad HTMLMinifyPlugin bind readFileSync await ret
       html_minify_options].
  rewrite Hfile.
  destruct (html_minifier E file _); reflexivity.
Qed.

(** Neither callback changes the host, whether it returns or throws. *)
Lemma onLoad_leaves_host (path : string) (h : host) :
  snd (onLoad (CSSMinifyPlugin E) path h) = h /\
  snd (onLoad (HTMLMinifyPlugin E) path h) = h.
Proof.
  cbv [onLoad CSSMinifyPlugin HTMLMinifyPlugin bind readFileSync await ret].
  destruct (files h path) as [file|]; [|split; reflexivity].
  destruct (esbuild_transform E file _), (html_minifier E file _);
    split; reflexivity.
Qed.

Variable argv : list string.
Variable packageJson : Pkg.package_json.
Variable fullYear : Z.

(** Spreading a target over the base configuration keeps its plugins and
    its [minify] flag. *)
Lemma spread_keeps_base (t : property target) :
  plugins (spread (baseConfig argv packageJson fullYear E) t) =
    [CSSMinifyPlugin E; HTMLMinifyPlugin E] /\
  minify (spread (baseConfig argv packageJson fullYear E) t) =
    includes "--minify" argv.
Proof. destruct t; split; reflexivity. Qed.

(** C1: for a path that ends in [.css] and a readable file there, the
    configured plugins load the file through the stylesheet callback, and
    what it returns is the code the engine's transform gives for the text
    of the file under the [css] loader with [minify] on, under the [text]
    loader; when the transform rejects, so does the callback. *)
Theorem stylesheet_transform_is_engine_minifier
  (path : string) (file : text) (h : host) :
  endsWith path ".css" = true ->
  files h path = Some file ->
  exists run,
    load (plugins (baseConfig argv packageJson fullYear E)) path = Some run /\
    run h =
    (match esbuild_transform E file
             {| tr_loader := "css"; tr_minify := true |}
     with
     | Resolved css => Resolved {| loader := "text"; contents := code css |}
     | Rejected e => Rejected e
     end, h).
Proof.
  intros Hpath Hfile.
  exists (onLoad (CSSMinifyPlugin E) path). split.
  - cbn [load plugins baseConfig]. cbn [filter CSSMinifyPlugin].
    now rewrite Hpath.
  - now apply stylesheet_onLoad_run.
Qed.

(** C2, as the script has it: for a path that ends in [.html] or [.svg]
    and a readable file there, the configured plugins load the file
    through the markup callback; the minifier is asked with
    [removeComments], [removeEmptyAttributes] and [collapseWhitespace] on,
    and what the callback returns is the minifier's answer trimmed, under
    the [text] loader.  That text neither starts nor ends with white
    space, and trimming adds no occurrence of any marker to the
    minifier's answer. *)
Theorem markup_transform_trims_minifier_output
  (path : string) (file minified : text) (h : host) :
  endsWith path ".html" || endsWith path ".svg" = true ->
  files h path = Some file ->
  html_minifier E file
    {| removeComments := true;
       removeEmptyAttributes := true;
       collapseWhitespace := true |} = Resolved minified ->
  exists run,
    load (plugins (baseConfig argv packageJson fullYear E)) path = Some run /\
    run h = (Resolved {| loader := "text"; contents := trim minified |}, h) /\
    starts_with_white_space (trim minified) = false /\
    ends_with_white_space (trim minified) = false /\
    forall marker : text,
      occurs_in marker (trim minified) -> occurs_in marker minified.
Proof.
  intros Hpath Hfile Hmin.
  exists (onLoad (HTMLMinifyPlugin E) path). split; [|split].
  - cbn [load plugins baseConfig]. cbn [filter CSSMinifyPlugin].
    rewrite (markup_path_is_no_stylesheet path Hpath).
    cbn [filter HTMLMinifyPlugin]. now rewrite Hpath.
  - rewrite (markup_onLoad_run path file h Hfile). now rewrite Hmin.
  - split; [apply trim_no_leading|].
    split; [apply trim_no_trailing|].
    intros marker. apply occurs_in_trim.
Qed.

(** C8: each callback is a function of the text of the file alone: on two
    hosts and two paths that hold the same text it settles the same way,
    and it leaves each host as it found it. *)
Theorem transforms_depend_on_contents_only
  (h h' : host) (path path' : string) (file : text) :
  files h path = Some file ->
  files h' path' = Some file ->
  (fst (onLoad (CSSMinifyPlugin E) path h) =
     fst (onLoad (CSSMinifyPlugin E) path' h') /\
   fst (onLoad (HTMLMinifyPlugin E) path h) =
     fst (onLoad (HTMLMinifyPlugin E) path' h')) /\
  (snd (onLoad (CSSMinifyPlugin E) path h) = h /\
   snd (onLoad (HTMLMinifyPlugin E) path h) = h) /\
  (snd (onLoad (CSSMinifyPlugin E) path' h') = h' /\
   snd (onLoad (HTMLMinifyPlugin E) path' h') = h').
Proof.
  intros Hfile Hfile'. split; [|split; apply onLoad_leaves_host].
  rewrite (stylesheet_onLoad_run path file h Hfile),
          (stylesheet_onLoad_run path' file h' Hfile'),
          (markup_onLoad_run path file h Hfile),
          (markup_onLoad_run path' file h' Hfile').
  split; reflexivity.
Qed.

(** C9: whatever the command line, and whichever target is spread over
    the base configuration, a [.css] file is loaded through a transform
    asked with [minify] on, while the [minify] option of the bundle
    itself is on exactly when [--minify] is among the arguments. *)
Theorem stylesheet_minification_ignores_flag
  (t : property target) (path : string) (file : text) (h : host) :
  endsWith path ".css" = true ->
  files h path = Some file ->
  (exists run,
     load (plugins (spread (baseConfig argv packageJson fullYear E) t)) path
       = Some run /\
     run h =
     (match esbuild_transform E file
              {| tr_loader := "css"; tr_minify := true |}
      with
      | Resolved css => Resolved {| loader := "text"; contents := code css |}
      | Rejected e => Rejected e
      end, h)) /\
  minify (spread (baseConfig argv packageJson fullYear E) t) =
    includes "--minify" argv.
Proof.
  intros Hpath Hfile.
  destruct (spread_keeps_base t) as [Hplugins Hminify].
  split; [|exact Hminify].
  exists (onLoad (CSSMinifyPlugin E) path). split.
  - rewrite Hplugins. cbn [load]. cbn [filter CSSMinifyPlugin].
    now rewrite Hpath.
  - now apply stylesheet_onLoad_run.
Qed.

End Transforms.

(** ** The command line *)

Section CommandLine.

Lemma includes_spec (x : string) (xs : list string) :
  includes x xs = true <-> In x xs.
Proof.
  unfold includes. rewrite existsb_exists. split.
  - intros [y [Hin Heq]]. apply String.eqb_eq in Heq. now subst y.
  - intros Hin. exists x. split; [exact Hin | apply String.eqb_refl].
Qed.

Lemma includes_false (x : string) (xs : list string) :
  ~ In x xs -> includes x xs = false.
Proof.
  intros Hnot. destruct (includes x xs) eqn:Hinc; [|reflexivity].
  apply includes_spec in Hinc. contradiction.
Qed.

Lemma split_plain (name : string) :
  plain_name name -> split "=" name = [name].
Proof.
  unfold plain_name. induction name as [|c r IH]; intros Hplain.
  - reflexivity.
  - cbn [split]. cbn [list_ascii_of_string] in Hplain.
    destruct (Ascii.eqb_spec c "=") as [Heq | Hne].
    + exfalso. apply Hplain. left. now symmetry.
    + rewrite IH; [reflexivity|]. intros Hin. apply Hplain. now right.
Qed.

(** Without an argument that opens with [--target=] the format is [umd]. *)
Lemma targetFormat_default (argv : list string) :
  targetArg argv = None -> targetFormat argv = Some "umd".
Proof. intros Harg. unfold targetFormat. now rewrite Harg. Qed.

(** With one, the format is what stands between its first [=] and its
    second. *)
Lemma targetFormat_flag (argv : list string) (name : string) :
  targetArg argv = Some ("--target=" ++ name) ->
  plain_name name ->
  targetFormat argv = Some name.
Proof.
  intros Harg Hplain. unfold targetFormat. rewrite Harg.
  cbn. now rewrite (split_plain name Hplain).
Qed.

Lemma target_names_plain (name : string) :
  In name target_names -> plain_name name.
Proof.
  unfold target_names, plain_name. intros Hin Heq.
  repeat (destruct Hin as [<- | Hin];
          [cbn in Heq; intuition discriminate|]).
  exact Hin.
Qed.

Lemma own_property_targets (packageJson : Pkg.package_json)
  (name : string) (t : target) :
  own_property (targets packageJson) name = Some t -> In name target_names.
Proof.
  unfold targets, target_names. cbn [own_property].
  repeat match goal with
         | |- context [String.eqb ?k name] =>
             destruct (String.eqb_spec k name) as [<- | _];
             [intros _; cbn; tauto|]
         end.
  discriminate.
Qed.

Lemma own_property_unknown (packageJson : Pkg.package_json) (name : string) :
  ~ In name target_names -> own_property (targets packageJson) name = None.
Proof.
  intros Hnot. destruct (own_property (targets packageJson) name) as [t|] eqn:Hown;
    [|reflexivity].
  exfalso. apply Hnot. exact (own_property_targets packageJson name t Hown).
Qed.

(** The record the script selects for a command line that names a
    target. *)
Lemma buildTarget_named (argv : list string) (packageJson : Pkg.package_json)
  (name : string) (t : target) :
  names_target argv name ->
  own_property (targets packageJson) name = Some t ->
  buildTarget argv packageJson = Own t.
Proof.
  intros Hnames Hown. unfold buildTarget, get.
  assert (Hfmt : targetFormat argv = Some name).
  { destruct Hnames as [Hnone | name Hflag].
    - now apply targetFormat_default.
    - apply targetFormat_flag; [exact Hflag|].
      apply target_names_plain.
      exact (own_property_targets packageJson name t Hown). }
  rewrite Hfmt. cbn [to_string]. now rewrite Hown.
Qed.

(** The record for a name that is neither a key of [targets] nor a name
    of [Object.prototype]. *)
Lemma buildTarget_unknown (argv : list string)
  (packageJson : Pkg.package_json) (name : string) :
  targetFormat argv = Some name ->
  ~ In name target_names ->
  ~ In name Object_prototype_names ->
  buildTarget argv packageJson = Undefined.
Proof.
  intros Hfmt Hown Hproto. unfold buildTarget, get.
  rewrite Hfmt. cbn [to_string].
  rewrite (own_property_unknown packageJson name Hown).
  now rewrite (includes_false name _ Hproto).
Qed.

End CommandLine.

(** ** Runs of [build] *)

Section Runs.

Lemma called_nil (p : process) : called [] p = p.
Proof. destruct p. unfold called. cbn. now rewrite app_nil_r. Qed.

Lemma called_app (cs cs' : list engine_call) (p : process) :
  called cs' (called cs p) = called (cs ++ cs') p.
Proof. unfold called. cbn. now rewrite app_assoc. Qed.

Lemma Promise_all_rejects {A : Type} (ps : list (result A)) (e : error) :
  In (Rejected e) ps -> exists e', Promise_all ps = Rejected e'.
Proof.
  induction ps as [|p r IH]; intros Hin; [contradiction|].
  destruct p as [v | e0]; [|now exists e0].
  destruct Hin as [Habs | Hin]; [discriminate|].
  destruct (IH Hin) as [e' He']. exists e'. cbn. now rewrite He'.
Qed.

Lemma Promise_all_resolves {A : Type} (ps : list (result A)) :
  (forall p, In p ps -> exists v, p = Resolved v) ->
  exists vs, Promise_all ps = Resolved vs.
Proof.
  induction ps as [|p r IH]; intros Hall; [now exists []|].
  destruct (Hall p (or_introl eq_refl)) as [v ->].
  destruct IH as [vs Hvs]; [intros q Hq; apply Hall; now right|].
  exists (v :: vs). cbn. now rewrite Hvs.
Qed.

Variable E : engine.

(** Mapping a call of [esbuild.build] over an array makes the calls in the
    order of the array and yields their promises. *)
Lemma map_calls_start_build {A : Type} (f : A -> M process (result unit))
  (g : A -> build_options) (xs : list A) (p : process) :
  (forall x, f x = start_build E (g x)) ->
  map_calls f xs p =
  (Resolved (List.map (esbuild_build E) (List.map g xs)),
   called (List.map Build (List.map g xs)) p).
Proof.
  intros Hf. revert p. induction xs as [|x r IH]; intros p.
  - cbn. unfold ret. now rewrite called_nil.
  - cbn [map_calls List.map]. rewrite Hf. unfold bind at 1.
    unfold start_build at 1. unfold bind at 1. unfold record_call, ret at 1.
    unfold bind at 1. rewrite IH. unfold ret. now rewrite called_app.
Qed.

Variable argv : list string.
Variable packageJson : Pkg.package_json.
Variable fullYear : Z.

Local Abbreviation base := (baseConfig argv packageJson fullYear E).
Local Abbreviation selected := (buildTarget argv packageJson).
Local Abbreviation one_shot := (one_shot_configs argv packageJson fullYear E).

(** The last step of both modes: reading [buildTarget.outfile] throws on
    [undefined] and on nothing else, and makes no call. *)
Lemma get_outfile_run (p : process) :
  get_outfile selected p =
  match selected with
  | Own t => (Resolved (Some (outfile t)), p)
  | Inherited _ => (Resolved None, p)
  | Undefined =>
      (Rejected
         (TypeError "Cannot read properties of undefined (reading 'outfile')"),
       p)
  end.
Proof. unfold get_outfile. now destruct selected. Qed.

(** A one-shot run: the three builds are started, then awaited together,
    then reported. *)
Lemma build_one_shot (p : process) :
  isWatch argv = false ->
  build argv packageJson fullYear E p =
  let p1 := called (List.map Build one_shot)
                   (logged "🏗️  Building all formats..." p) in
  match Promise_all (List.map (esbuild_build E) one_shot) with
  | Rejected e => (Rejected e, p1)
  | Resolved _ =>
      (out <- get_outfile selected ;;
       console_log ("✅ Build complete: " ++ to_string out) ;;;
       console_log ("📦 Version: " ++ version packageJson)) p1
  end.
Proof.
  intros Hwatch. unfold build. rewrite Hwatch. cbv zeta.
  unfold bind at 1. unfold console_log at 1. unfold bind at 1.
  rewrite (map_calls_start_build _
             (fun kt : string * target => spread base (Own (snd kt))))
    by (intros [k t]; reflexivity).
  change (List.map _ (List.filter _ _)) with one_shot.
  unfold bind at 1. unfold await at 1.
  destruct (Promise_all _); reflexivity.
Qed.

(** A watch run: one context for the selected record, then its watcher,
    then the report. *)
Lemma build_watch (p : process) :
  isWatch argv = true ->
  build argv packageJson fullYear E p =
  let p1 := called [Context (spread base selected)] p in
  match esbuild_context E (spread base selected) with
  | Rejected e => (Rejected e, p1)
  | Resolved ctx =>
      let p2 := called [Watch ctx] p1 in
      match context_watch E ctx with
      | Rejected e => (Rejected e, p2)
      | Resolved _ =>
          (out <- get_outfile selected ;;
           console_log ("⚡ Watching " ++ to_string out ++ "...")) p2
      end
  end.
Proof.
  intros Hwatch. unfold build. rewrite Hwatch. cbv zeta.
  unfold bind at 1. unfold create_context. unfold bind at 1.
  unfold record_call at 1. unfold await at 1.
  destruct (esbuild_context E _) as [ctx | e]; [|reflexivity].
  unfold bind at 1. unfold watch. unfold bind at 1.
  unfold record_call at 1. unfold await at 1.
  destruct (context_watch E ctx); reflexivity.
Qed.

(** The report makes no call and fails on [undefined] alone. *)
Lemma report_run (k : option string -> M process unit) (p : process) :
  (forall out q, exists q', k out q = (Resolved tt, q') /\ calls q' = calls q)
  ->
  exists p',
    calls p' = calls p /\
    (out <- get_outfile selected ;; k out) p =
    (match selected with
     | Undefined =>
         Rejected
           (TypeError
              "Cannot read properties of undefined (reading 'outfile')")
     | _ => Resolved tt
     end, p').
Proof.
  intros Hk. unfold bind at 1. rewrite get_outfile_run.
  destruct selected as [t | inherited |].
  - destruct (Hk (Some (outfile t)) p) as [q [Hr Hc]]. now exists q.
  - destruct (Hk None p) as [q [Hr Hc]]. now exists q.
  - exists p. split; reflexivity.
Qed.

Lemma console_log_run (line : string) (q : process) :
  exists q', console_log line q = (Resolved tt, q') /\ calls q' = calls q.
Proof. exists (logged line q). split; reflexivity. Qed.

(** What a one-shot run settles with and which calls it has made. *)
Lemma one_shot_run (p : process) :
  isWatch argv = false ->
  exists p',
    calls p' = (calls p ++ List.map Build one_shot)%list /\
    build argv packageJson fullYear E p =
    (match Promise_all (List.map (esbuild_build E) one_shot) with
     | Rejected e => Rejected e
     | Resolved _ =>
         match selected with
         | Undefined =>
             Rejected
               (TypeError
                  "Cannot read properties of undefined (reading 'outfile')")
         | _ => Resolved tt
         end
     end, p').
Proof.
  intros Hwatch. rewrite (build_one_shot p Hwatch). cbv zeta.
  destruct (Promise_all _) as [vs | e].
  - match goal with
    | |- context [bind (get_outfile _) ?k ?q] =>
        destruct (report_run k q) as [p' [Hcalls Hrun]]
    end.
    + intros out q. unfold bind at 1.
      destruct (console_log_run ("✅ Build complete: " ++ to_string out) q)
        as [q1 [-> Hq1]].
      destruct (console_log_run ("📦 Version: " ++ version packageJson) q1)
        as [q2 [-> Hq2]].
      exists q2. split; [reflexivity | congruence].
    + exists p'. split; [|exact Hrun]. now rewrite Hcalls.
  - eexists. split; [|reflexivity]. reflexivity.
Qed.

(** What a watch run settles with and which calls it has made. *)
Lemma watch_run (p : process) :
  isWatch argv = true ->
  exists p',
    calls p' =
      (calls p ++
       Context (spread base selected) ::
       match esbuild_context E (spread base selected) with
       | Resolved ctx => [Watch ctx]
       | Rejected _ => []
       end)%list /\
    build argv packageJson fullYear E p =
    (match esbuild_context E (spread base selected) with
     | Rejected e => Rejected e
     | Resolved ctx =>
         match context_watch E ctx with
         | Rejected e => Rejected e
         | Resolved _ =>
             match selected with
             | Undefined =>
                 Rejected
                   (TypeError
                      "Cannot read properties of undefined (reading 'outfile')")
             | _ => Resolved tt
             end
         end
     end, p').
Proof.
  intros Hwatch. rewrite (build_watch p Hwatch). cbv zeta.
  destruct (esbuild_context E _) as [ctx | e].
  - destruct (context_watch E ctx) as [u | e].
    + match goal with
      | |- context [bind (get_outfile _) ?k ?q] =>
          destruct (report_run k q) as [p' [Hcalls Hrun]]
      end.
      * intros out q. apply console_log_run.
      * exists p'. split; [|exact Hrun]. rewrite Hcalls. cbn [calls called].
        now rewrite <- app_assoc.
    + eexists. split; [|reflexivity]. cbn [calls called].
      now rewrite <- app_assoc.
  - eexists. split; [|reflexivity]. reflexivity.
Qed.

(** [main] turns a rejection into status 1 and nothing else. *)
Lemma main_status (p : process) :
  fst (main argv packageJson fullYear E p) =
  match fst (build argv packageJson fullYear E p) with
  | Rejected _ => Exited 1
  | Resolved _ => if isWatch argv then Watching else Exited 0
  end /\
  snd (main argv packageJson fullYear E p) =
  snd (build argv packageJson fullYear E p).
Proof.
  unfold main. destruct (build argv packageJson fullYear E p) as [[u | e] p'];
    split; reflexivity.
Qed.

(** C3: in a one-shot run every one of the three targets is handed to
    the bundler once and no call is repeated; when the bundler rejects any
    of them the top-level promise rejects and the process ends with status
    1; the status is 1 whenever that promise rejects and 0 whenever it
    resolves, and it resolves when all three builds do and the selected
    record is not [undefined]. *)
Theorem one_shot_exit_status (p : process) :
  isWatch argv = false ->
  calls (snd (main argv packageJson fullYear E p)) =
    (calls p ++ List.map Build one_shot)%list /\
  (forall o e,
     In o one_shot -> esbuild_build E o = Rejected e ->
     fst (main argv packageJson fullYear E p) = Exited 1) /\
  (forall e,
     fst (build argv packageJson fullYear E p) = Rejected e ->
     fst (main argv packageJson fullYear E p) = Exited 1) /\
  (forall u,
     fst (build argv packageJson fullYear E p) = Resolved u ->
     fst (main argv packageJson fullYear E p) = Exited 0) /\
  ((forall o, In o one_shot -> exists u, esbuild_build E o = Resolved u) ->
   selected <> Undefined ->
   fst (main argv packageJson fullYear E p) = Exited 0).
Proof.
  intros Hwatch.
  destruct (main_status p) as [Hstatus Hstate].
  destruct (one_shot_run p Hwatch) as [p' [Hcalls Hrun]].
  rewrite Hstatus, Hstate, Hrun, Hwatch. cbn [fst snd].
  split; [exact Hcalls|]. split; [|split; [|split]].
  - intros o e Hin Hrej.
    destruct (Promise_all_rejects (List.map (esbuild_build E) one_shot) e)
      as [e' ->]; [|reflexivity].
    rewrite <- Hrej. now apply in_map.
  - intros e ->. reflexivity.
  - intros u ->. reflexivity.
  - intros Hall Hsel.
    destruct (Promise_all_resolves (List.map (esbuild_build E) one_shot))
      as [vs ->].
    + intros r Hr. apply in_map_iff in Hr. destruct Hr as [o [<- Hin]].
      now apply Hall.
    + destruct selected; [reflexivity | reflexivity | congruence].
Qed.

(** C4: a one-shot run whose command line has no [--target=] argument
    makes exactly three calls, each a build: of the ESM target to
    [dist/accessibility-widget.esm.js], of the CJS target to
    [dist/accessibility-widget.cjs.js] and of the IIFE target to
    [dist/accessibility-widget.umd.js]; none of them writes the file of
    the version-suffixed target. *)
Theorem one_shot_builds_three_targets (p : process) :
  isWatch argv = false ->
  targetArg argv = None ->
  calls (snd (main argv packageJson fullYear E p)) =
    (calls p ++ List.map Build one_shot)%list /\
  built_targets (List.map Build one_shot) =
    [ (Some "esm", Some "dist/accessibility-widget.esm.js", None);
      (Some "cjs", Some "dist/accessibility-widget.cjs.js", None);
      (Some "iife", Some "dist/accessibility-widget.umd.js",
       Some "AccessibilityWidget") ] /\
  o_outfile (config_of argv packageJson fullYear E "umd-versioned") =
    Some (versioned_outfile packageJson) /\
  ~ In (Some (versioned_outfile packageJson)) (List.map o_outfile one_shot).
Proof.
  intros Hwatch _.
  destruct (main_status p) as [_ Hstate].
  destruct (one_shot_run p Hwatch) as [p' [Hcalls Hrun]].
  rewrite Hstate, Hrun. cbn [snd].
  split; [exact Hcalls|]. split; [reflexivity|]. split; [reflexivity|].
  unfold versioned_outfile. cbn. intros Hin.
  repeat (destruct Hin as [Habs | Hin]; [discriminate Habs|]).
  exact Hin.
Qed.

(** C7, as the script has it: a watch run asks the bundler for one
    context, then for the watcher of that context if it came, and makes
    no other call, no build among them.  The name the script reads is
    [umd] without a [--target=] argument and what a first argument
    [--target=name] carries.  When that name is a key of [targets], the
    context carries the format, the output file and the global name of
    that target, and the output file of no other target; when it is no
    key, the context carries no format, no output file and no global
    name: no target is built. *)
Theorem watch_builds_selected_target (name : string) (p : process) :
  isWatch argv = true ->
  targetFormat argv = Some name ->
  calls (snd (main argv packageJson fullYear E p)) =
    (calls p ++
     Context (spread base selected) ::
     match esbuild_context E (spread base selected) with
     | Resolved ctx => [Watch ctx]
     | Rejected _ => []
     end)%list /\
  (targetArg argv = None -> name = "umd") /\
  (forall flagged,
     targetArg argv = Some ("--target=" ++ flagged) ->
     plain_name flagged -> name = flagged) /\
  (forall t,
     own_property (targets packageJson) name = Some t ->
     selected = Own t /\
     o_format (spread base selected) = Some (format t) /\
     o_outfile (spread base selected) = Some (outfile t) /\
     o_globalName (spread base selected) = globalName t /\
     forall key t',
       In (key, t') (targets packageJson) -> key <> name ->
       o_outfile (spread base selected) <> Some (outfile t')) /\
  (~ In name target_names ->
   (o_format (spread base selected), o_outfile (spread base selected),
    o_globalName (spread base selected)) = (None, None, None)).
Proof.
  intros Hwatch Hfmt. split; [|split; [|split; [|split]]].
  - destruct (main_status p) as [_ Hstate].
    destruct (watch_run p Hwatch) as [p' [Hcalls Hrun]].
    rewrite Hstate, Hrun. cbn [snd]. exact Hcalls.
  - intros Hnone. rewrite (targetFormat_default argv Hnone) in Hfmt.
    now injection Hfmt as <-.
  - intros flagged Hflag Hplain.
    rewrite (targetFormat_flag argv flagged Hflag Hplain) in Hfmt.
    now injection Hfmt as <-.
  - intros t Hown.
    assert (Hsel : selected = Own t).
    { unfold buildTarget, get. rewrite Hfmt. cbn [to_string].
      now rewrite Hown. }
    rewrite Hsel. split; [reflexivity|]. cbn [spread o_format o_outfile
      o_globalName baseConfig].
    split; [reflexivity|]. split; [reflexivity|].
    split; [now destruct (globalName t)|].
    intros key t' Hin Hkey Hfile. injection Hfile as Hfile.
    unfold targets in Hown, Hin. cbn [own_property] in Hown.
    cbn [In] in Hin.
    repeat match type of Hown with
           | context [String.eqb ?k name] =>
               destruct (String.eqb_spec k name) as [<- | _]
           end;
      try discriminate Hown; injection Hown as <-;
      repeat (destruct Hin as [Hin | Hin];
              [injection Hin as <- <-;
               first [now apply Hkey | cbn in Hfile; discriminate Hfile]|]);
      exact Hin.
  - intros Hkey. unfold buildTarget, get. rewrite Hfmt. cbn [to_string].
    rewrite (own_property_unknown packageJson name Hkey).
    now destruct (includes name Object_prototype_names).
Qed.

(** C10, as the script has it: in a watch run, when the name the script
    reads from the command line, the text of the first [--target=]
    argument between its first [=] and the next, is neither a key of
    [targets] nor a name of [Object.prototype], the selected record is
    [undefined] and the process ends with status 1, whatever the bundler
    answers. *)
Theorem watch_unknown_target_exits (name : string) (p : process) :
  isWatch argv = true ->
  targetFormat argv = Some name ->
  ~ In name target_names ->
  ~ In name Object_prototype_names ->
  selected = Undefined /\
  fst (main argv packageJson fullYear E p) = Exited 1.
Proof.
  intros Hwatch Hfmt Hown Hproto.
  assert (Hsel : selected = Undefined)
    by now apply (buildTarget_unknown argv packageJson name).
  split; [exact Hsel|].
  destruct (main_status p) as [Hstatus _].
  destruct (watch_run p Hwatch) as [p' [_ Hrun]].
  rewrite Hstatus, Hrun, Hsel. clear Hrun. cbn [fst].
  destruct (esbuild_context E _) as [ctx | e]; [|reflexivity].
  destruct (context_watch E ctx); reflexivity.
Qed.

End Runs.

Section TargetFlag.

Variable E : engine.
Variable packageJson : Pkg.package_json.
Variable fullYear : Z.
Variables argv argv' : list string.

(** C6: two one-shot runs, whatever their command lines, hand the same
    targets to the bundler, and the file of the version-suffixed target is
    not among the files they write, whether or not [--target=umd-versioned]
    was given. *)
Theorem one_shot_targets_ignore_flag (h : host) :
  isWatch argv = false ->
  isWatch argv' = false ->
  built_targets (calls (snd (main argv packageJson fullYear E (fresh h)))) =
  built_targets (calls (snd (main argv' packageJson fullYear E (fresh h)))) /\
  ~ In (Some (versioned_outfile packageJson))
       (List.map (fun b => snd (fst b))
          (built_targets
             (calls (snd (main argv packageJson fullYear E (fresh h)))))).
Proof.
  intros Hwatch Hwatch'.
  destruct (main_status E argv packageJson fullYear (fresh h)) as [_ Hstate].
  destruct (one_shot_run E argv packageJson fullYear (fresh h) Hwatch)
    as [q [Hcalls Hrun]].
  assert (Hstate' := proj2 (main_status E argv' packageJson fullYear (fresh h))).
  destruct (one_shot_run E argv' packageJson fullYear (fresh h) Hwatch')
    as [q' [Hcalls' Hrun']].
  rewrite Hstate, Hrun, Hstate', Hrun'. cbn [snd].
  rewrite Hcalls, Hcalls'. cbn [calls fresh app].
  split; [reflexivity|].
  unfold versioned_outfile. cbn. intros Hin.
  repeat (destruct Hin as [Habs | Hin]; [discriminate Habs|]).
  exact Hin.
Qed.

End TargetFlag.

(** ** The banner *)

Section Banner.

Lemma append_assoc (a b c : string) : (a ++ b) ++ c = a ++ b ++ c.
Proof. induction a as [|x a IH]; cbn; [reflexivity | now rewrite IH]. Qed.

Lemma substring_of_skip (sub p s : string) :
  substring_of sub s -> substring_of sub (p ++ s).
Proof.
  intros [pre [post Hs]]. exists (p ++ pre), post.
  now rewrite Hs, append_assoc.
Qed.

Variable argv : list string.
Variable fullYear : Z.
Variable E : engine.

(** C5: for the metadata fixture (version 1.2.3, license MIT, author A,
    repository https://example.com/repo), whatever its optional fields,
    the year and the command line, the banner of the base configuration
    contains [Accessibility Widget v1.2.3] and [License: MIT]. *)
Theorem banner_fixture_substrings (company author' original : option string) :
  substring_of "Accessibility Widget v1.2.3"
    (banner_js
       (baseConfig argv (fixture company author' original) fullYear E)) /\
  substring_of "License: MIT"
    (banner_js
       (baseConfig argv (fixture company author' original) fullYear E)).
Proof.
  cbn [banner_js baseConfig]. unfold banner.
  cbn [Pkg.version Pkg.license fixture]. split.
  - exists ("/*!" ++ nl ++ "* "). eexists. reflexivity.
  - do 13 apply substring_of_skip.
    exists "* ". eexists. reflexivity.
Qed.

End Banner.

(** ** The statements at concrete inputs *)

(** Closes a goal that a literal is not in a list of literals. *)
Ltac not_listed :=
  let H := fresh in
  intros H; cbn in H; intuition discriminate.

(** The banner of the fixture in 2026 holds both substrings, at the
    offsets 6 and 104. *)
Example banner_fixture_run :
  index 0 "Accessibility Widget v1.2.3" (banner sample_package 2026) = Some 6%nat
  /\ index 0 "License: MIT" (banner sample_package 2026) = Some 104%nat.
Proof. split; reflexivity. Qed.

(** A one-shot run whose [--target=] names nothing: the three builds are
    made and resolve, the report throws, the status is 1. *)
Example one_shot_unknown_target_run :
  main ["--target=nope"] sample_package 2026 idle_engine (fresh sample_host) =
  (Exited 1,
   called (List.map Build
             (one_shot_configs ["--target=nope"] sample_package 2026
                               idle_engine))
          (logged "🏗️  Building all formats..." (fresh sample_host))).
Proof. reflexivity. Qed.

Lemma stylesheet_transform_witness :
  endsWith "widget.css" ".css" = true /\
  files sample_host "widget.css" = Some sample_css /\
  exists run,
    load (plugins (baseConfig ["--minify"] sample_package 2026 idle_engine))
         "widget.css" = Some run /\
    run sample_host =
    (Resolved {| loader := "text"; contents := sample_css |}, sample_host).
Proof.
  split; [reflexivity|]. split; [reflexivity|].
  refine (stylesheet_transform_is_engine_minifier
            idle_engine ["--minify"] sample_package 2026
            "widget.css" sample_css sample_host _ _); reflexivity.
Defined.

(** The markup callback hands on a comment that the minifier keeps.  The
    engine here answers with the document itself; [html-minifier] does so
    on a comment that opens with [!], which its default
    [ignoreCustomComments] protects and the script does not override. *)
Lemma markup_transform_keeps_marked_comment :
  filter (HTMLMinifyPlugin idle_engine) "note.html" = true /\
  files sample_host "note.html" = Some marked_comment /\
  onLoad (HTMLMinifyPlugin idle_engine) "note.html" sample_host =
    (Resolved {| loader := "text"; contents := marked_comment |},
     sample_host) /\
  occurs_in (units "<!--") marked_comment.
Proof.
  split; [reflexivity|]. split; [reflexivity|]. split; [reflexivity|].
  exists [], (units "!x-->"). reflexivity.
Qed.

Lemma markup_transform_witness :
  endsWith "menu.html" ".html" || endsWith "menu.html" ".svg" = true /\
  files sample_host "menu.html" = Some sample_html /\
  exists run,
    load (plugins (baseConfig [] sample_package 2026 idle_engine))
         "menu.html" = Some run /\
    run sample_host =
    (Resolved {| loader := "text"; contents := units "<p>hi</p>" |},
     sample_host) /\
    starts_with_white_space (units "<p>hi</p>") = false /\
    ends_with_white_space (units "<p>hi</p>") = false /\
    forall marker : text,
      occurs_in marker (units "<p>hi</p>") -> occurs_in marker sample_html.
Proof.
  split; [reflexivity|]. split; [reflexivity|].
  refine (markup_transform_trims_minifier_output
            idle_engine [] sample_package 2026
            "menu.html" sample_html sample_html sample_host _ _ _);
    reflexivity.
Defined.

Lemma one_shot_exit_status_witness :
  isWatch ["--minify"] = false /\
  esbuild_build cjs_failing_engine
    (config_of ["--minify"] sample_package 2026 cjs_failing_engine "cjs") =
    Rejected (ExternalError "Build failed with 1 error") /\
  fst (main ["--minify"] sample_package 2026 cjs_failing_engine
         (fresh sample_host)) = Exited 1.
Proof.
  split; [reflexivity|]. split; [reflexivity|].
  refine (proj1 (proj2 (one_shot_exit_status
                          cjs_failing_engine ["--minify"] sample_package 2026
                          (fresh sample_host) _))
            (config_of ["--minify"] sample_package 2026 cjs_failing_engine
                       "cjs")
            (ExternalError "Build failed with 1 error") _ _).
  - reflexivity.
  - right. left. reflexivity.
  - reflexivity.
Defined.

Lemma one_shot_builds_three_targets_witness :
  isWatch ["--minify"] = false /\
  targetArg ["--minify"] = None /\
  calls (snd (main ["--minify"] sample_package 2026 idle_engine
                (fresh sample_host))) =
    List.map Build
      (one_shot_configs ["--minify"] sample_package 2026 idle_engine).
Proof.
  split; [reflexivity|]. split; [reflexivity|].
  refine (proj1 (one_shot_builds_three_targets
                   idle_engine ["--minify"] sample_package 2026
                   (fresh sample_host) _ _)); reflexivity.
Defined.

Lemma one_shot_targets_ignore_flag_witness :
  isWatch ["--target=umd-versioned"] = false /\
  isWatch [] = false /\
  built_targets
    (calls (snd (main ["--target=umd-versioned"] sample_package 2026
                   idle_engine (fresh sample_host)))) =
  built_targets
    (calls (snd (main [] sample_package 2026 idle_engine
                   (fresh sample_host)))) /\
  ~ In (Some "dist/accessibility-widget-1.2.3.umd.js")
       (List.map (fun b => snd (fst b))
          (built_targets
             (calls (snd (main ["--target=umd-versioned"] sample_package 2026
                            idle_engine (fresh sample_host)))))).
Proof.
  split; [reflexivity|]. split; [reflexivity|].
  refine (one_shot_targets_ignore_flag
            idle_engine sample_package 2026 ["--target=umd-versioned"] []
            sample_host _ _); reflexivity.
Defined.

(** Two watch runs that build no target: [constructor] selects a member
    of [Object.prototype] and [nope] selects nothing, and in both the one
    context asked for is the base configuration, without format, output
    file or global name. *)
Lemma watch_unkeyed_name_builds_no_target :
  (isWatch ["--watch"; "--target=constructor"] = true /\
   main ["--watch"; "--target=constructor"] sample_package 2026 idle_engine
        (fresh sample_host) =
   (Watching,
    logged "⚡ Watching undefined..."
      (called [ Context (baseConfig ["--watch"; "--target=constructor"]
                                    sample_package 2026 idle_engine);
                Watch 0%nat ]
              (fresh sample_host)))) /\
  (isWatch ["--watch"; "--target=nope"] = true /\
   main ["--watch"; "--target=nope"] sample_package 2026 idle_engine
        (fresh sample_host) =
   (Exited 1,
    called [ Context (baseConfig ["--watch"; "--target=nope"]
                                 sample_package 2026 idle_engine);
             Watch 0%nat ]
           (fresh sample_host))) /\
  (forall argv,
     let o := baseConfig argv sample_package 2026 idle_engine in
     (o_format o, o_outfile o, o_globalName o) = (None, None, None)).
Proof.
  split; [split; reflexivity|]. split; [split; reflexivity|].
  intros argv. reflexivity.
Qed.

Lemma watch_builds_selected_target_witness :
  isWatch ["--watch"; "--target=esm"] = true /\
  targetFormat ["--watch"; "--target=esm"] = Some "esm" /\
  calls (snd (main ["--watch"; "--target=esm"] sample_package 2026
                idle_engine (fresh sample_host))) =
    [ Context (config_of ["--watch"; "--target=esm"] sample_package 2026
                         idle_engine "esm");
      Watch 0%nat ] /\
  o_outfile (config_of ["--watch"; "--target=esm"] sample_package 2026
                       idle_engine "esm") =
    Some "dist/accessibility-widget.esm.js" /\
  o_format (config_of ["--watch"; "--target=esm"] sample_package 2026
                      idle_engine "esm") = Some "esm".
Proof.
  split; [reflexivity|]. split; [reflexivity|].
  destruct (watch_builds_selected_target
              idle_engine ["--watch"; "--target=esm"] sample_package 2026
              "esm" (fresh sample_host) eq_refl eq_refl)
    as [Hcalls [_ [_ [Hkey _]]]].
  split; [exact Hcalls|].
  destruct (Hkey {| format := "esm";
                    outfile := "dist/accessibility-widget.esm.js";
                    globalName := None |} eq_refl)
    as [_ [Hformat [Hfile _]]].
  split; [exact Hfile | exact Hformat].
Defined.

Lemma transforms_depend_on_contents_only_witness :
  files host_a "a.css" = Some sample_css /\
  files host_b "themes/b.css" = Some sample_css /\
  fst (onLoad (CSSMinifyPlugin idle_engine) "a.css" host_a) =
  fst (onLoad (CSSMinifyPlugin idle_engine) "themes/b.css" host_b) /\
  snd (onLoad (CSSMinifyPlugin idle_engine) "a.css" host_a) = host_a.
Proof.
  split; [reflexivity|]. split; [reflexivity|].
  destruct (transforms_depend_on_contents_only
              idle_engine host_a host_b "a.css" "themes/b.css" sample_css
              eq_refl eq_refl)
    as [[Hsame _] [[Hleft _] _]].
  split; [exact Hsame | exact Hleft].
Defined.

Lemma stylesheet_minification_ignores_flag_witness :
  endsWith "widget.css" ".css" = true /\
  files sample_host "widget.css" = Some sample_css /\
  includes "--minify" ["--target=esm"] = false /\
  (exists run,
     load (plugins
             (config_of ["--target=esm"] sample_package 2026 idle_engine
                        "esm"))
          "widget.css" = Some run /\
     run sample_host =
     (Resolved {| loader := "text"; contents := sample_css |}, sample_host))
  /\
  minify (config_of ["--target=esm"] sample_package 2026 idle_engine "esm") =
    false.
Proof.
  split; [reflexivity|]. split; [reflexivity|]. split; [reflexivity|].
  refine (stylesheet_minification_ignores_flag
            idle_engine ["--target=esm"] sample_package 2026
            (get (targets sample_package) (Some "esm"))
            "widget.css" sample_css sample_host _ _); reflexivity.
Defined.

(** Two names that are no key of [targets] and yet select a record:
    [constructor], which every object inherits, and [esm=x], of which the
    script reads [esm] alone; the second run watches the ESM target. *)
Lemma watch_unrecognized_name_selects_record :
  (~ In "constructor" target_names /\
   isWatch ["--watch"; "--target=constructor"] = true /\
   buildTarget ["--watch"; "--target=constructor"] sample_package =
     Inherited "constructor") /\
  (~ In "esm=x" target_names /\
   isWatch ["--watch"; "--target=esm=x"] = true /\
   buildTarget ["--watch"; "--target=esm=x"] sample_package =
     get (targets sample_package) (Some "esm") /\
   main ["--watch"; "--target=esm=x"] sample_package 2026 idle_engine
        (fresh sample_host) =
   (Watching,
    logged "⚡ Watching dist/accessibility-widget.esm.js..."
      (called [ Context (config_of ["--watch"; "--target=esm=x"]
                                   sample_package 2026 idle_engine "esm");
                Watch 0%nat ]
              (fresh sample_host)))).
Proof.
  split.
  - split; [not_listed | split; reflexivity].
  - split; [not_listed | split; [|split]; reflexivity].
Qed.

Lemma watch_unknown_target_exits_witness :
  isWatch ["--watch"; "--target=nope=x"] = true /\
  targetFormat ["--watch"; "--target=nope=x"] = Some "nope" /\
  ~ In "nope" target_names /\
  ~ In "nope" Object_prototype_names /\
  buildTarget ["--watch"; "--target=nope=x"] sample_package = Undefined /\
  fst (main ["--watch"; "--target=nope=x"] sample_package 2026 idle_engine
         (fresh sample_host)) = Exited 1.
Proof.
  assert (Hown : ~ In "nope" target_names) by not_listed.
  assert (Hproto : ~ In "nope" Object_prototype_names) by not_listed.
  split; [reflexivity|]. split; [reflexivity|].
  split; [exact Hown|]. split; [exact Hproto|].
  refine (watch_unknown_target_exits
            idle_engine ["--watch"; "--target=nope=x"] sample_package 2026
            "nope" (fresh sample_host) _ _ Hown Hproto); reflexivity.
Defined.

(** ** Further properties of the command line *)

Section MoreCommandLine.

Lemma prefix_append (p s : string) :
  String.prefix p s = true -> exists r, s = p ++ r.
Proof.
  revert s. induction p as [|c p IH]; intros s Hpre.
  - now exists s.
  - destruct s as [|d s]; [discriminate Hpre|]. cbn in Hpre.
    destruct (ascii_dec c d) as [<- | Hne]; [|discriminate Hpre].
    destruct (IH s Hpre) as [r ->]. now exists r.
Qed.

Lemma split_nonempty (sep : ascii) (s : string) :
  exists p ps, split sep s = p :: ps.
Proof.
  induction s as [|c s IH]; [now exists EmptyString, []|].
  cbn [split]. destruct (Ascii.eqb c sep); [now eexists; eexists|].
  destruct IH as [p [ps ->]]. now eexists; eexists.
Qed.

Lemma split_target_flag (r : string) :
  split "=" ("--target=" ++ r) = "--target" :: split "=" r.
Proof. reflexivity. Qed.

Lemma split_plain_then (name rest : string) :
  plain_name name ->
  split "=" (name ++ String "=" rest) = name :: split "=" rest.
Proof.
  unfold plain_name. induction name as [|c r IH]; intros Hplain.
  - reflexivity.
  - cbn [append]. cbn [split]. cbn [list_ascii_of_string] in Hplain.
    destruct (Ascii.eqb_spec c "=") as [Heq | Hne].
    + exfalso. apply Hplain. left. now symmetry.
    + rewrite IH; [reflexivity|]. intros Hin. apply Hplain. now right.
Qed.

Lemma targetArg_flag (argv : list string) (arg : string) :
  targetArg argv = Some arg -> exists r, arg = "--target=" ++ r.
Proof.
  intros Harg. apply find_some in Harg. destruct Harg as [_ Hpre].
  now apply prefix_append.
Qed.

Lemma targetArg_append (argv more : list string) (arg : string) :
  targetArg argv = Some arg -> targetArg (argv ++ more) = Some arg.
Proof.
  unfold targetArg. induction argv as [|a argv IH]; [discriminate|].
  cbn [find app]. destruct (startsWith a "--target="); [trivial | exact IH].
Qed.

(** X1: [targetArg.split('=')[1]] is never [undefined]: whatever the command
    line, the script has a target name to look up. *)
Theorem targetFormat_defined (argv : list string) :
  exists name, targetFormat argv = Some name.
Proof.
  unfold targetFormat. destruct (targetArg argv) as [arg|] eqn:Harg;
    [|now exists "umd"].
  destruct (targetArg_flag argv arg Harg) as [r ->].
  destruct (split_nonempty "=" r) as [p [ps Hsplit]].
  exists p.
  change (nth_error (split "=" ("--target=" ++ r)) 1 = Some p).
  now rewrite split_target_flag, Hsplit.
Qed.

(** X2: Of the first [--target=] argument the script reads what stands
    between the first [=] and the next: a second [=] and all after it are
    dropped. *)
Theorem targetFormat_stops_at_equals
  (argv : list string) (name rest : string) :
  targetArg argv = Some ("--target=" ++ name ++ "=" ++ rest) ->
  plain_name name ->
  targetFormat argv = Some name /\
  forall packageJson,
    buildTarget argv packageJson = get (targets packageJson) (Some name).
Proof.
  intros Harg Hplain.
  assert (Hfmt : targetFormat argv = Some name).
  { unfold targetFormat. rewrite Harg.
    change (nth_error (split "=" ("--target=" ++ name ++ String "=" rest)) 1
            = Some name).
    now rewrite split_target_flag, (split_plain_then name rest Hplain). }
  split; [exact Hfmt|]. intros packageJson. unfold buildTarget.
  now rewrite Hfmt.
Qed.

(** X3: The first [--target=] argument decides: arguments after it, further
    [--target=] arguments among them, change neither the name read nor
    the record selected. *)
Theorem first_target_flag_wins
  (argv more : list string) (packageJson : Pkg.package_json) (arg : string) :
  targetArg argv = Some arg ->
  targetFormat (argv ++ more) = targetFormat argv /\
  buildTarget (argv ++ more) packageJson = buildTarget argv packageJson.
Proof.
  intros Harg.
  assert (Hfmt : targetFormat (argv ++ more) = targetFormat argv).
  { unfold targetFormat.
    now rewrite (targetArg_append argv more arg Harg), Harg. }
  split; [exact Hfmt|]. unfold buildTarget. now rewrite Hfmt.
Qed.

End MoreCommandLine.

(** ** Further properties of the targets and the runs *)

Section MoreRuns.

(** X4: The four targets have four keys and write four files, whatever the
    version, and each is found under its key. *)
Theorem targets_are_distinct (packageJson : Pkg.package_json) :
  NoDup (List.map fst (targets packageJson)) /\
  NoDup (List.map (fun kt => outfile (snd kt)) (targets packageJson)) /\
  forall key t,
    In (key, t) (targets packageJson) ->
    get (targets packageJson) (Some key) = Own t.
Proof.
  split; [|split].
  - unfold targets. cbn [List.map fst].
    repeat constructor; not_listed.
  - unfold targets. cbn [List.map snd outfile].
    repeat constructor; cbn; intros Hin;
      repeat (destruct Hin as [Habs | Hin]; [discriminate Habs|]);
      exact Hin.
  - intros key t Hin. unfold targets in Hin. cbn in Hin.
    repeat (destruct Hin as [Heq | Hin];
            [injection Heq as <- <-; reflexivity|]).
    contradiction.
Qed.

Variable E : engine.
Variable argv : list string.
Variable packageJson : Pkg.package_json.
Variable fullYear : Z.

Local Abbreviation base := (baseConfig argv packageJson fullYear E).
Local Abbreviation selected := (buildTarget argv packageJson).
Local Abbreviation one_shot := (one_shot_configs argv packageJson fullYear E).
Local Abbreviation run := (main argv packageJson fullYear E).

Lemma spread_carries_base (t : property target) :
  carries_base argv packageJson fullYear E (spread base t).
Proof. destruct t; repeat split; reflexivity. Qed.

Lemma report_exact (k : option string -> M process unit) (q : process) :
  selected <> Undefined ->
  (out <- get_outfile selected ;; k out) q = k (reported_outfile selected) q.
Proof.
  intros Hsel. unfold bind. rewrite get_outfile_run.
  destruct selected; [reflexivity | reflexivity | congruence].
Qed.

Lemma report_throws (k : option string -> M process unit) (q : process) :
  selected = Undefined ->
  exists e, (out <- get_outfile selected ;; k out) q = (Rejected e, q).
Proof.
  intros Hsel. unfold bind. rewrite get_outfile_run, Hsel. now eexists.
Qed.

Lemma selected_without_key (name : string) :
  targetFormat argv = Some name ->
  ~ In name target_names ->
  spread base selected = base /\ reported_outfile selected = None.
Proof.
  intros Hfmt Hown. unfold buildTarget, get. rewrite Hfmt. cbn [to_string].
  rewrite (own_property_unknown packageJson name Hown).
  destruct (includes name Object_prototype_names); split; reflexivity.
Qed.

(** The final state of a one-shot run, by what the bundler answers and
    what record is selected. *)
Lemma main_one_shot (p : process) :
  isWatch argv = false ->
  let p1 := called (List.map Build one_shot)
                   (logged "🏗️  Building all formats..." p) in
  run p =
  match Promise_all (List.map (esbuild_build E) one_shot), selected with
  | Rejected _, _ => (Exited 1, p1)
  | Resolved _, Undefined => (Exited 1, p1)
  | Resolved _, _ =>
      (Exited 0,
       logged ("📦 Version: " ++ version packageJson)
         (logged ("✅ Build complete: " ++ to_string (reported_outfile selected))
                 p1))
  end.
Proof.
  intros Hwatch. cbv zeta. unfold main.
  rewrite (build_one_shot E argv packageJson fullYear p Hwatch). cbv zeta.
  destruct (Promise_all _) as [vs | e]; [|reflexivity].
  destruct selected as [t | inherited |] eqn:Hsel.
  - rewrite <- Hsel, report_exact by congruence. rewrite Hwatch, Hsel.
    reflexivity.
  - rewrite <- Hsel, report_exact by congruence. rewrite Hwatch, Hsel.
    reflexivity.
  - rewrite <- Hsel.
    match goal with
    | |- context [bind (get_outfile _) ?k ?q] =>
        destruct (report_throws k q Hsel) as [e ->]
    end.
    reflexivity.
Qed.

(** The final state of a watch run. *)
Lemma main_watch (p : process) :
  isWatch argv = true ->
  let p1 := called [Context (spread base selected)] p in
  run p =
  match esbuild_context E (spread base selected) with
  | Rejected _ => (Exited 1, p1)
  | Resolved ctx =>
      let p2 := called [Watch ctx] p1 in
      match context_watch E ctx, selected with
      | Rejected _, _ => (Exited 1, p2)
      | Resolved _, Undefined => (Exited 1, p2)
      | Resolved _, _ =>
          (Watching,
           logged ("⚡ Watching " ++ to_string (reported_outfile selected)
                   ++ "...") p2)
      end
  end.
Proof.
  intros Hwatch. cbv zeta. unfold main.
  rewrite (build_watch E argv packageJson fullYear p Hwatch). cbv zeta.
  destruct (esbuild_context E _) as [ctx | e]; [|reflexivity].
  destruct (context_watch E ctx) as [u | e]; [|reflexivity].
  destruct selected as [t | inherited |] eqn:Hsel.
  - rewrite <- Hsel, report_exact by congruence. rewrite Hwatch, Hsel.
    reflexivity.
  - rewrite <- Hsel, report_exact by congruence. rewrite Hwatch, Hsel.
    reflexivity.
  - rewrite <- Hsel.
    match goal with
    | |- context [bind (get_outfile _) ?k ?q] =>
        destruct (report_throws k q Hsel) as [e ->]
    end.
    reflexivity.
Qed.

Lemma Promise_all_resolved_inv {A : Type} (ps : list (result A))
  (vs : list A) :
  Promise_all ps = Resolved vs ->
  forall p, In p ps -> exists v, p = Resolved v.
Proof.
  revert vs. induction ps as [|q r IH]; intros vs Hall p Hin;
    [contradiction|].
  destruct q as [v | e]; [|discriminate Hall]. cbn in Hall.
  destruct (Promise_all r) as [ws | e] eqn:Hr; [|discriminate Hall].
  destruct Hin as [<- | Hin]; [now exists v | now apply (IH ws)].
Qed.

Lemma console_logged (line : string) (q : process) :
  console (p_host (logged line q)) = (console (p_host q) ++ [line])%list.
Proof. reflexivity. Qed.

Lemma console_called (cs : list engine_call) (q : process) :
  console (p_host (called cs q)) = console (p_host q).
Proof. reflexivity. Qed.

(** X5: Every call of a run that carries options, a build or a context,
    carries the entry point, the flags, the alias, the loaders, the two
    plugins and the banner of the base configuration: a target changes
    the format, the output file and the global name and nothing else. *)
Theorem every_call_carries_base (h : host) (c : engine_call)
  (o : build_options) :
  In c (calls (snd (run (fresh h)))) ->
  call_options c = Some o ->
  carries_base argv packageJson fullYear E o.
Proof.
  assert (Hone : forall cs,
             Forall (fun c' => forall o', call_options c' = Some o' ->
                       carries_base argv packageJson fullYear E o') cs ->
             In c cs -> call_options c = Some o ->
             carries_base argv packageJson fullYear E o).
  { intros cs Hall Hin. rewrite Forall_forall in Hall. now apply Hall. }
  assert (Hopts : forall t c',
             c' = Build (spread base t) \/ c' = Context (spread base t) ->
             forall o', call_options c' = Some o' ->
                        carries_base argv packageJson fullYear E o').
  { intros t c' [-> | ->] o' Hopt; injection Hopt as <-;
      apply spread_carries_base. }
  destruct (isWatch argv) eqn:Hwatch.
  - rewrite (main_watch (fresh h) Hwatch). cbv zeta.
    destruct (esbuild_context E _) as [ctx | e];
      [destruct (context_watch E ctx), selected|];
      cbn [snd calls called logged fresh app]; apply Hone;
      repeat first [apply Forall_nil | apply Forall_cons];
      try (eapply Hopts; now right);
      intros o' Hopt; discriminate Hopt.
  - rewrite (main_one_shot (fresh h) Hwatch). cbv zeta.
    destruct (Promise_all _), selected;
      cbn [snd calls called logged fresh app one_shot_configs List.map];
      apply Hone; repeat first [apply Forall_nil | apply Forall_cons];
      eapply Hopts; now left.
Qed.

(** X6: A one-shot run ends with status 0 exactly when the bundler resolves
    all three builds and the selected record is not [undefined]; in every
    other case it ends with status 1. *)
Theorem one_shot_status_iff (p : process) :
  isWatch argv = false ->
  (fst (run p) = Exited 0 <->
   (forall o, In o one_shot -> exists u, esbuild_build E o = Resolved u) /\
   selected <> Undefined) /\
  (fst (run p) <> Exited 0 -> fst (run p) = Exited 1).
Proof.
  intros Hwatch. rewrite (main_one_shot p Hwatch). cbv zeta.
  destruct (Promise_all (List.map (esbuild_build E) one_shot))
    as [vs | e] eqn:Hall.
  - assert (Hres : forall o, In o one_shot ->
                             exists u, esbuild_build E o = Resolved u).
    { intros o Hin.
      apply (Promise_all_resolved_inv _ vs Hall). now apply in_map. }
    destruct selected as [t | inherited |]; cbn [fst].
    + split; [split|]; [| intros _; reflexivity | congruence].
      intros _. split; [exact Hres | discriminate].
    + split; [split|]; [| intros _; reflexivity | congruence].
      intros _. split; [exact Hres | discriminate].
    + split; [split|]; [discriminate | | intros _; reflexivity].
      intros [_ Habs]. congruence.
  - cbn [fst]. split; [split|]; [discriminate | | intros _; reflexivity].
    intros [Hres _]. exfalso.
    destruct (Promise_all_resolves (List.map (esbuild_build E) one_shot))
      as [vs Hvs]; [|congruence].
    intros r Hr. apply in_map_iff in Hr. destruct Hr as [o [<- Hin]].
    now apply Hres.
Qed.

(** X7: What a one-shot run prints: the opening line always, and after it the
    completion line with the file of the selected record and the version
    line when the status is 0, nothing when it is 1. *)
Theorem one_shot_console (p : process) :
  isWatch argv = false ->
  (fst (run p) = Exited 0 ->
   console (p_host (snd (run p))) =
   (console (p_host p) ++
    [ "🏗️  Building all formats...";
      ("✅ Build complete: " ++ to_string (reported_outfile selected))%string;
      ("📦 Version: " ++ Pkg.version packageJson)%string ])%list) /\
  (fst (run p) = Exited 1 ->
   console (p_host (snd (run p))) =
   (console (p_host p) ++ ["🏗️  Building all formats..."])%list).
Proof.
  intros Hwatch. rewrite (main_one_shot p Hwatch). cbv zeta.
  destruct (Promise_all _), selected; cbn [fst snd]; split; intros Hst;
    try discriminate Hst;
    rewrite ?console_logged, ?console_called, ?console_logged,
            <- ?app_assoc;
    reflexivity.
Qed.

(** X8: With [--target=umd-versioned] a one-shot run that succeeds prints the
    version-suffixed file as complete, and yet no build of the run writes
    that file. *)
Theorem one_shot_reports_unbuilt_file (p : process) :
  isWatch argv = false ->
  names_target argv "umd-versioned" ->
  (forall o, In o one_shot -> exists u, esbuild_build E o = Resolved u) ->
  fst (run p) = Exited 0 /\
  In ("✅ Build complete: " ++ versioned_outfile packageJson)
     (console (p_host (snd (run p)))) /\
  calls (snd (run p)) = (calls p ++ List.map Build one_shot)%list /\
  ~ In (Some (versioned_outfile packageJson)) (List.map o_outfile one_shot).
Proof.
  intros Hwatch Hnames Hres.
  assert (Hsel : selected =
                 Own {| format := "iife";
                        outfile := versioned_outfile packageJson;
                        globalName := Some "AccessibilityWidget" |}).
  { now apply (buildTarget_named argv packageJson "umd-versioned"). }
  rewrite (main_one_shot p Hwatch). cbv zeta.
  destruct (Promise_all_resolves (List.map (esbuild_build E) one_shot))
    as [vs ->].
  { intros r Hr. apply in_map_iff in Hr. destruct Hr as [o [<- Hin]].
    now apply Hres. }
  rewrite Hsel. cbn [fst snd reported_outfile outfile to_string].
  split; [reflexivity|]. split; [|split].
  - rewrite console_logged, console_logged. apply in_or_app. left.
    apply in_or_app. right. now left.
  - reflexivity.
  - unfold versioned_outfile. cbn. intros Hin.
    repeat (destruct Hin as [Habs | Hin]; [discriminate Habs|]).
    exact Hin.
Qed.

(** X9: A one-shot run whose [--target=] carries a name that is neither a key
    of [targets] nor a name of [Object.prototype] starts the three builds
    and then ends with status 1, whatever the bundler answers. *)
Theorem one_shot_unknown_target_exits (name : string) (p : process) :
  isWatch argv = false ->
  targetArg argv = Some ("--target=" ++ name) ->
  plain_name name ->
  ~ In name target_names ->
  ~ In name Object_prototype_names ->
  fst (run p) = Exited 1 /\
  calls (snd (run p)) = (calls p ++ List.map Build one_shot)%list.
Proof.
  intros Hwatch Harg Hplain Hown Hproto.
  assert (Hsel : selected = Undefined).
  { apply (buildTarget_unknown argv packageJson name); try assumption.
    now apply targetFormat_flag. }
  rewrite (main_one_shot p Hwatch). cbv zeta. rewrite Hsel.
  destruct (Promise_all _); split; reflexivity.
Qed.

(** X10: A watch run keeps the process alive exactly when the bundler gives a
    context, the watcher starts and the selected record is not
    [undefined]; in every other case it ends with status 1, never 0. *)
Theorem watch_status_iff (p : process) :
  isWatch argv = true ->
  (fst (run p) = Watching <->
   exists ctx u,
     esbuild_context E (spread base selected) = Resolved ctx /\
     context_watch E ctx = Resolved u /\
     selected <> Undefined) /\
  (fst (run p) <> Watching -> fst (run p) = Exited 1).
Proof.
  intros Hwatch. rewrite (main_watch p Hwatch). cbv zeta.
  destruct (esbuild_context E _) as [ctx | e].
  - destruct (context_watch E ctx) as [u | e] eqn:Hw.
    + destruct selected as [t | inherited |]; cbn [fst].
      * split; [split|]; [| intros _; reflexivity | congruence].
        intros _. exists ctx, u.
        split; [reflexivity | split; [exact Hw | discriminate]].
      * split; [split|]; [| intros _; reflexivity | congruence].
        intros _. exists ctx, u.
        split; [reflexivity | split; [exact Hw | discriminate]].
      * split; [split|]; [discriminate | | intros _; reflexivity].
        intros [ctx' [u' [_ [_ Habs]]]]. congruence.
    + cbn [fst]. split; [split|]; [discriminate | | intros _; reflexivity].
      intros [ctx' [u' [Hctx [Hw' _]]]]. injection Hctx as <-. congruence.
  - cbn [fst]. split; [split|]; [discriminate | | intros _; reflexivity].
    intros [ctx' [u' [Hctx _]]]. discriminate Hctx.
Qed.

(** X11: What a watch run prints: one line that names the file of the selected
    record when the process stays alive, nothing when it ends. *)
Theorem watch_console (p : process) :
  isWatch argv = true ->
  (fst (run p) = Watching ->
   console (p_host (snd (run p))) =
   (console (p_host p) ++
    [("⚡ Watching " ++ to_string (reported_outfile selected) ++ "...")%string]
   )%list)
  /\
  (fst (run p) = Exited 1 ->
   console (p_host (snd (run p))) = console (p_host p)).
Proof.
  intros Hwatch. rewrite (main_watch p Hwatch). cbv zeta.
  destruct (esbuild_context E _) as [ctx | e];
    [destruct (context_watch E ctx), selected|];
    cbn [fst snd]; split; intros Hst; try discriminate Hst; reflexivity.
Qed.

(** X12: In a watch run whose target name is no key of [targets], the context
    the bundler is asked for is the base configuration itself, with no
    format, no output file and no global name, and a line that is printed
    names the file [undefined]. *)
Theorem watch_without_key_requests_base (name : string) (p : process) :
  isWatch argv = true ->
  targetFormat argv = Some name ->
  ~ In name target_names ->
  (exists rest,
     calls (snd (run p)) = (calls p ++ Context base :: rest)%list) /\
  (o_format base, o_outfile base, o_globalName base) = (None, None, None) /\
  (fst (run p) = Watching ->
   console (p_host (snd (run p))) =
   (console (p_host p) ++ ["⚡ Watching undefined..."])%list).
Proof.
  intros Hwatch Hfmt Hown.
  destruct (selected_without_key name Hfmt Hown) as [Hspread Hout].
  rewrite (main_watch p Hwatch). cbv zeta. rewrite Hspread, Hout.
  split; [|split; [reflexivity|]].
  - destruct (esbuild_context E base) as [ctx | e];
      [destruct (context_watch E ctx), selected|];
      cbn [snd calls called logged]; rewrite <- ?app_assoc; eexists;
      reflexivity.
  - destruct (esbuild_context E base) as [ctx | e];
      [destruct (context_watch E ctx), selected|];
      cbn [fst snd]; intros Hst; try discriminate Hst; reflexivity.
Qed.

End MoreRuns.

(** ** Further properties of the transforms *)

Section MoreTransforms.

Lemma trimStart_blank (t : text) :
  Forall (fun c => is_white_space c = true) t -> trimStart t = [].
Proof.
  induction 1 as [|c r Hc _ IH]; [reflexivity|]. cbn. now rewrite Hc.
Qed.

Lemma trimStart_fixed (t : text) :
  starts_with_white_space t = false -> trimStart t = t.
Proof. destruct t as [|c r]; [reflexivity|]. cbn. now intros ->. Qed.

Lemma trimEnd_fixed (t : text) :
  ends_with_white_space t = false -> trimEnd t = t.
Proof.
  unfold ends_with_white_space, trimEnd. intros Hlast.
  rewrite (trimStart_fixed _ Hlast). apply rev_involutive.
Qed.

Lemma trim_idempotent (t : text) : trim (trim t) = trim t.
Proof.
  unfold trim at 1. rewrite (trimStart_fixed _ (trim_no_leading t)).
  apply trimEnd_fixed, trim_no_trailing.
Qed.

Variable E : engine.

(** X13: The two filters share no path: a file is loaded by the stylesheet
    callback when its path ends in [.css], by the markup callback when it
    ends in [.html] or [.svg], and by neither plugin otherwise. *)
Theorem plugins_split_paths (argv : list string)
  (packageJson : Pkg.package_json) (fullYear : Z) (path : string) :
  load (plugins (baseConfig argv packageJson fullYear E)) path =
    (if endsWith path ".css"
     then Some (onLoad (CSSMinifyPlugin E) path)
     else if endsWith path ".html" || endsWith path ".svg"
          then Some (onLoad (HTMLMinifyPlugin E) path)
          else None) /\
  (filter (CSSMinifyPlugin E) path = true ->
   filter (HTMLMinifyPlugin E) path = false).
Proof.
  split.
  - cbn [load plugins baseConfig]. cbn [filter CSSMinifyPlugin].
    destruct (endsWith path ".css"); [reflexivity|].
    cbn [filter HTMLMinifyPlugin].
    now destruct (endsWith path ".html" || endsWith path ".svg").
  - cbn [filter CSSMinifyPlugin HTMLMinifyPlugin]. intros Hcss.
    destruct (endsWith path ".html" || endsWith path ".svg") eqn:Hmarkup;
      [|reflexivity].
    rewrite (markup_path_is_no_stylesheet path Hmarkup) in Hcss.
    discriminate Hcss.
Qed.

(** X14: A callback resolves exactly when the file can be read and the engine
    resolves on its text; on a path that cannot be read both reject with
    the error [fs.readFileSync] throws there, whatever it is and whatever
    the engine. *)
Theorem transforms_settle (path : string) (h : host) :
  ((exists out, fst (onLoad (CSSMinifyPlugin E) path h) = Resolved out) <->
   (exists file css,
      files h path = Some file /\
      esbuild_transform E file {| tr_loader := "css"; tr_minify := true |}
        = Resolved css)) /\
  ((exists out, fst (onLoad (HTMLMinifyPlugin E) path h) = Resolved out) <->
   (exists file minified,
      files h path = Some file /\
      html_minifier E file
        {| removeComments := true;
           removeEmptyAttributes := true;
           collapseWhitespace := true |} = Resolved minified)) /\
  (files h path = None ->
   onLoad (CSSMinifyPlugin E) path h =
     (Rejected (read_error h path), h) /\
   onLoad (HTMLMinifyPlugin E) path h =
     (Rejected (read_error h path), h)).
Proof.
  destruct (files h path) as [file|] eqn:Hfile.
  - rewrite (stylesheet_onLoad_run E path file h Hfile),
            (markup_onLoad_run E path file h Hfile).
    split; [|split; [|discriminate]].
    + destruct (esbuild_transform E file _) as [css | e] eqn:Hcss; cbn [fst].
      * split; [intros _; exists file, css; now split | now eexists].
      * split; [intros [out Hout]; discriminate Hout|].
        intros [file' [css [Hfile' Hcss']]]. injection Hfile' as <-.
        congruence.
    + destruct (html_minifier E file _) as [m | e] eqn:Hmin; cbn [fst].
      * split; [intros _; exists file, m; now split | now eexists].
      * split; [intros [out Hout]; discriminate Hout|].
        intros [file' [m [Hfile' Hmin']]]. injection Hfile' as <-.
        congruence.
  - assert (Hcss : onLoad (CSSMinifyPlugin E) path h =
                   (Rejected (read_error h path), h)).
    { cbv [onLoad CSSMinifyPlugin bind readFileSync]. now rewrite Hfile. }
    assert (Hmarkup : onLoad (HTMLMinifyPlugin E) path h =
                      (Rejected (read_error h path), h)).
    { cbv [onLoad HTMLMinifyPlugin bind readFileSync]. now rewrite Hfile. }
    rewrite Hcss, Hmarkup. cbn [fst].
    split; [|split; [|now split]].
    + split; [intros [out Hout]; discriminate Hout|].
      intros [file [css [Habs _]]]. discriminate Habs.
    + split; [intros [out Hout]; discriminate Hout|].
      intros [file [m [Habs _]]]. discriminate Habs.
Qed.

(** X15: When the minifier answers with white space alone, or with nothing,
    the markup callback returns the empty text. *)
Theorem markup_blank_is_empty (path : string) (file minified : text)
  (h : host) :
  files h path = Some file ->
  html_minifier E file
    {| removeComments := true;
       removeEmptyAttributes := true;
       collapseWhitespace := true |} = Resolved minified ->
  Forall (fun c => is_white_space c = true) minified ->
  onLoad (HTMLMinifyPlugin E) path h =
    (Resolved {| loader := "text"; contents := [] |}, h).
Proof.
  intros Hfile Hmin Hblank.
  rewrite (markup_onLoad_run E path file h Hfile), Hmin.
  unfold trim. now rewrite (trimStart_blank minified Hblank).
Qed.

(** X16: What the markup callback returns is the minifier's answer without the
    white space at its two ends, the text between them kept as it is, and
    trimming it once more changes nothing. *)
Theorem markup_output_is_core (path : string) (file minified : text)
  (h : host) :
  files h path = Some file ->
  html_minifier E file
    {| removeComments := true;
       removeEmptyAttributes := true;
       collapseWhitespace := true |} = Resolved minified ->
  exists out,
    onLoad (HTMLMinifyPlugin E) path h = (Resolved out, h) /\
    trim (contents out) = contents out /\
    exists before after,
      minified = (before ++ contents out ++ after)%list /\
      Forall (fun c => is_white_space c = true) before /\
      Forall (fun c => is_white_space c = true) after.
Proof.
  intros Hfile Hmin.
  exists {| loader := "text"; contents := trim minified |}.
  split; [|split].
  - now rewrite (markup_onLoad_run E path file h Hfile), Hmin.
  - apply trim_idempotent.
  - apply trim_split.
Qed.

End MoreTransforms.

(** ** Further properties of the banner *)

Section MoreBanner.

Lemma endsWith_refl (s : string) : endsWith s s = true.
Proof. destruct s; cbn [endsWith]; now rewrite String.eqb_refl. Qed.

Lemma endsWith_skip (a s p : string) :
  endsWith s p = true -> endsWith (a ++ s) p = true.
Proof.
  intros Hs. induction a as [|c a IH]; [exact Hs|].
  cbn [append endsWith]. rewrite IH. apply orb_true_r.
Qed.

Variable packageJson : Pkg.package_json.
Variable fullYear : Z.

(** X17: The banner opens a comment with [/*!] and closes it with [*/] after
    the line of the original repository, which shows
    [originalRepository.url] or, when that is absent or empty, the URL of
    the repository. *)
Theorem banner_frame :
  String.prefix "/*!" (banner packageJson fullYear) = true /\
  endsWith (banner packageJson fullYear)
    ("* Original Repository: " ++
     match Pkg.originalRepository_url packageJson with
     | Some (String c u) => String c u
     | _ => Pkg.repository_url packageJson
     end ++ nl ++ "*/") = true.
Proof.
  split; [reflexivity|]. unfold banner.
  do 26 apply endsWith_skip.
  destruct (Pkg.originalRepository_url packageJson) as [[|c u]|];
    apply endsWith_refl.
Qed.

(** X18: Without [modifiedByCompany], absent or empty, the banner does not
    depend on [modifiedByAuthor], and its fourth line is empty. *)
Theorem banner_without_company (a : option string) :
  truthy (Pkg.modifiedByCompany packageJson) = false ->
  banner (with_modifiedByAuthor a packageJson) fullYear =
    banner packageJson fullYear /\
  substring_of (nl ++ nl ++ "* License: ") (banner packageJson fullYear).
Proof.
  intros Hcompany. split.
  - unfold banner. cbn [with_modifiedByAuthor Pkg.version Pkg.license
      Pkg.author Pkg.repository_url Pkg.modifiedByCompany
      Pkg.modifiedByAuthor Pkg.originalRepository_url].
    now rewrite Hcompany.
  - unfold banner. rewrite Hcompany.
    do 10 apply substring_of_skip.
    exists EmptyString. eexists. reflexivity.
Qed.

End MoreBanner.

(** ** The further properties at concrete inputs *)

Lemma targetFormat_stops_at_equals_witness :
  targetArg ["--watch"; "--target=esm=x"] =
    Some ("--target=" ++ "esm" ++ "=" ++ "x") /\
  plain_name "esm" /\
  targetFormat ["--watch"; "--target=esm=x"] = Some "esm" /\
  buildTarget ["--watch"; "--target=esm=x"] sample_package =
    Own {| format := "esm";
           outfile := "dist/accessibility-widget.esm.js";
           globalName := None |}.
Proof.
  assert (Hplain : plain_name "esm") by not_listed.
  split; [reflexivity|]. split; [exact Hplain|].
  destruct (targetFormat_stops_at_equals
              ["--watch"; "--target=esm=x"] "esm" "x" eq_refl Hplain)
    as [Hformat Hrecord].
  split; [exact Hformat | exact (Hrecord sample_package)].
Defined.

Lemma first_target_flag_wins_witness :
  targetArg ["--target=cjs"] = Some "--target=cjs" /\
  targetFormat (["--target=cjs"] ++ ["--target=esm"; "--watch"]) =
    targetFormat ["--target=cjs"] /\
  buildTarget (["--target=cjs"] ++ ["--target=esm"; "--watch"])
              sample_package =
    buildTarget ["--target=cjs"] sample_package.
Proof.
  split; [reflexivity|].
  exact (first_target_flag_wins
           ["--target=cjs"] ["--target=esm"; "--watch"] sample_package
           "--target=cjs" eq_refl).
Defined.

Lemma every_call_carries_base_witness :
  In (Context (config_of ["--watch"] modified_package 2026 idle_engine "umd"))
     (calls (snd (main ["--watch"] modified_package 2026 idle_engine
                    (fresh sample_host)))) /\
  carries_base ["--watch"] modified_package 2026 idle_engine
    (config_of ["--watch"] modified_package 2026 idle_engine "umd").
Proof.
  assert (Hin : In (Context (config_of ["--watch"] modified_package 2026
                                       idle_engine "umd"))
                   (calls (snd (main ["--watch"] modified_package 2026
                                  idle_engine (fresh sample_host)))))
    by (left; reflexivity).
  split; [exact Hin|].
  exact (every_call_carries_base
           idle_engine ["--watch"] modified_package 2026 sample_host
           (Context (config_of ["--watch"] modified_package 2026
                               idle_engine "umd"))
           (config_of ["--watch"] modified_package 2026 idle_engine "umd")
           Hin eq_refl).
Defined.

Lemma one_shot_status_iff_witness :
  isWatch ["--minify"] = false /\
  fst (main ["--minify"] sample_package 2026 idle_engine
         (fresh sample_host)) = Exited 0 /\
  (fst (main ["--minify"] sample_package 2026 cjs_failing_engine
          (fresh sample_host)) = Exited 0 -> False).
Proof.
  split; [reflexivity|]. split.
  - apply (proj1 (one_shot_status_iff
                    idle_engine ["--minify"] sample_package 2026
                    (fresh sample_host) eq_refl)).
    split; [|discriminate]. intros o _. now exists tt.
  - intros Hzero.
    destruct (proj1 (proj1 (one_shot_status_iff
                              cjs_failing_engine ["--minify"] sample_package
                              2026 (fresh sample_host) eq_refl)) Hzero)
      as [Hall _].
    destruct (Hall (config_of ["--minify"] sample_package 2026
                              cjs_failing_engine "cjs"))
      as [u Hu]; [right; left; reflexivity | discriminate Hu].
Defined.

Lemma one_shot_console_witness :
  isWatch ["--target=cjs"] = false /\
  fst (main ["--target=cjs"] sample_package 2026 idle_engine
         (fresh sample_host)) = Exited 0 /\
  console (p_host (snd (main ["--target=cjs"] sample_package 2026 idle_engine
                          (fresh sample_host)))) =
    [ "🏗️  Building all formats...";
      "✅ Build complete: dist/accessibility-widget.cjs.js";
      "📦 Version: 1.2.3" ].
Proof.
  split; [reflexivity|]. split; [reflexivity|].
  exact (proj1 (one_shot_console
                  idle_engine ["--target=cjs"] sample_package 2026
                  (fresh sample_host) eq_refl) eq_refl).
Defined.

Lemma one_shot_reports_unbuilt_file_witness :
  isWatch ["--target=umd-versioned"] = false /\
  names_target ["--target=umd-versioned"] "umd-versioned" /\
  In "✅ Build complete: dist/accessibility-widget-1.2.3.umd.js"
     (console (p_host (snd (main ["--target=umd-versioned"] sample_package
                              2026 idle_engine (fresh sample_host))))) /\
  ~ In (Some "dist/accessibility-widget-1.2.3.umd.js")
       (List.map o_outfile
          (one_shot_configs ["--target=umd-versioned"] sample_package 2026
                            idle_engine)).
Proof.
  assert (Hnames : names_target ["--target=umd-versioned"] "umd-versioned")
    by (apply target_flag; reflexivity).
  split; [reflexivity|]. split; [exact Hnames|].
  destruct (one_shot_reports_unbuilt_file
              idle_engine ["--target=umd-versioned"] sample_package 2026
              (fresh sample_host) eq_refl Hnames)
    as [_ [Hline [_ Hfiles]]].
  - intros o _. now exists tt.
  - split; [exact Hline | exact Hfiles].
Defined.

Lemma one_shot_unknown_target_exits_witness :
  isWatch ["--target="] = false /\
  targetArg ["--target="] = Some ("--target=" ++ EmptyString) /\
  plain_name EmptyString /\
  ~ In EmptyString target_names /\
  ~ In EmptyString Object_prototype_names /\
  fst (main ["--target="] sample_package 2026 idle_engine
         (fresh sample_host)) = Exited 1.
Proof.
  assert (Hplain : plain_name EmptyString) by not_listed.
  assert (Hown : ~ In EmptyString target_names) by not_listed.
  assert (Hproto : ~ In EmptyString Object_prototype_names) by not_listed.
  split; [reflexivity|]. split; [reflexivity|].
  split; [exact Hplain|]. split; [exact Hown|]. split; [exact Hproto|].
  exact (proj1 (one_shot_unknown_target_exits
                  idle_engine ["--target="] sample_package 2026
                  EmptyString (fresh sample_host)
                  eq_refl eq_refl Hplain Hown Hproto)).
Defined.

Lemma watch_status_iff_witness :
  isWatch ["--watch"] = true /\
  fst (main ["--watch"] sample_package 2026 context_failing_engine
         (fresh sample_host)) = Exited 1 /\
  fst (main ["--watch"] sample_package 2026 idle_engine
         (fresh sample_host)) = Watching.
Proof.
  split; [reflexivity|]. split.
  - apply (proj2 (watch_status_iff
                    context_failing_engine ["--watch"] sample_package 2026
                    (fresh sample_host) eq_refl)).
    intros Hwatching.
    destruct (proj1 (proj1 (watch_status_iff
                              context_failing_engine ["--watch"]
                              sample_package 2026 (fresh sample_host)
                              eq_refl)) Hwatching)
      as [ctx [u [Hctx _]]].
    discriminate Hctx.
  - apply (proj1 (watch_status_iff
                    idle_engine ["--watch"] sample_package 2026
                    (fresh sample_host) eq_refl)).
    exists 0%nat, tt. split; [reflexivity | split; [reflexivity|]].
    discriminate.
Defined.

Lemma watch_console_witness :
  isWatch ["--watch"; "--target=cjs"] = true /\
  console (p_host (snd (main ["--watch"; "--target=cjs"] sample_package 2026
                          idle_engine (fresh sample_host)))) =
    ["⚡ Watching dist/accessibility-widget.cjs.js..."] /\
  console (p_host (snd (main ["--watch"; "--target=cjs"] sample_package 2026
                          context_failing_engine (fresh sample_host)))) = [].
Proof.
  split; [reflexivity|]. split.
  - exact (proj1 (watch_console
                    idle_engine ["--watch"; "--target=cjs"] sample_package
                    2026 (fresh sample_host) eq_refl) eq_refl).
  - exact (proj2 (watch_console
                    context_failing_engine ["--watch"; "--target=cjs"]
                    sample_package 2026 (fresh sample_host) eq_refl)
                 eq_refl).
Defined.

Lemma watch_without_key_requests_base_witness :
  isWatch ["--watch"; "--target=toString"] = true /\
  targetFormat ["--watch"; "--target=toString"] = Some "toString" /\
  ~ In "toString" target_names /\
  console (p_host (snd (main ["--watch"; "--target=toString"] sample_package
                          2026 idle_engine (fresh sample_host)))) =
    ["⚡ Watching undefined..."].
Proof.
  assert (Hown : ~ In "toString" target_names) by not_listed.
  split; [reflexivity|]. split; [reflexivity|]. split; [exact Hown|].
  exact (proj2 (proj2 (watch_without_key_requests_base
                         idle_engine ["--watch"; "--target=toString"]
                         sample_package 2026 "toString" (fresh sample_host)
                         eq_refl eq_refl Hown))
               eq_refl).
Defined.

Lemma markup_blank_is_empty_witness :
  files blank_host "blank.html" = Some blank_markup /\
  Forall (fun c => is_white_space c = true) blank_markup /\
  onLoad (HTMLMinifyPlugin idle_engine) "blank.html" blank_host =
    (Resolved {| loader := "text"; contents := [] |}, blank_host).
Proof.
  assert (Hblank : Forall (fun c => is_white_space c = true) blank_markup)
    by (repeat constructor).
  split; [reflexivity|]. split; [exact Hblank|].
  exact (markup_blank_is_empty
           idle_engine "blank.html" blank_markup blank_markup blank_host
           eq_refl eq_refl Hblank).
Defined.

Lemma markup_output_is_core_witness :
  files sample_host "menu.html" = Some sample_html /\
  exists out,
    onLoad (HTMLMinifyPlugin idle_engine) "menu.html" sample_host =
      (Resolved out, sample_host) /\
    trim (contents out) = contents out /\
    exists before after,
      sample_html = (before ++ contents out ++ after)%list /\
      Forall (fun c => is_white_space c = true) before /\
      Forall (fun c => is_white_space c = true) after.
Proof.
  split; [reflexivity|].
  exact (markup_output_is_core
           idle_engine "menu.html" sample_html sample_html sample_host
           eq_refl eq_refl).
Defined.

Lemma banner_without_company_witness :
  truthy (Pkg.modifiedByCompany sample_package) = false /\
  banner (with_modifiedByAuthor (Some "Bob") sample_package) 2026 =
    banner sample_package 2026.
Proof.
  split; [reflexivity|].
  exact (proj1 (banner_without_company
                  sample_package 2026 (Some "Bob") eq_refl)).
Defined.
